(** * MailHero DNS posture verification

    A shallow embedding of the two places of the repository that examine
    the DNS records of a mail domain:

    - [Tool]: the [dnsStatus] handler of [agent/src/tools/adminOperations.js]
      (the HTTP-exposed service tool);
    - [Script]: the stand-alone DNS verification shell script.

    The resolver is a capability handed to the code.  Its calls, and the
    calls of the logger, are recorded as events so that statements about
    what was asked of the resolver, and about the score written to the log,
    can be made. *)

From Stdlib Require Import List String Ascii ZArith Lia Bool DecimalString.
Import ListNotations.
Open Scope list_scope.
Open Scope string_scope.

(** ** JavaScript string and array primitives used by the tool *)

Module Js.

(** [s.startsWith(p)] *)
Definition startsWith (s p : string) : bool := String.prefix p s.

(** [s.includes(sub)]: [sub] occurs at some position of [s]. *)
Fixpoint includes (s sub : string) : bool :=
  if String.prefix sub s then true
  else match s with
       | EmptyString => false
       | String _ rest => includes rest sub
       end.

(** [record.join('')] on an array of strings. *)
Fixpoint join (chunks : list string) : string :=
  match chunks with
  | [] => EmptyString
  | c :: rest => (c ++ join rest)%string
  end.

(** Truthiness of a value that is either [null] or a string. *)
Definition truthy (v : option string) : bool :=
  match v with
  | None => false
  | Some s => negb (String.eqb s EmptyString)
  end.

End Js.

(** ** The service tool: [dnsStatus] *)

Module Tool.

Record MxRecord := mkMx { exchange : string; priority : Z }.

(** A thrown value; only its [message] is read. *)
Record JsError := mkError { message : string }.

Inductive Verdict := unknown | pass | warn | fail.

Record DkimEntry := mkDkim { selector : string; txt : string }.

(** The [results] object. *)
Record Results := mkResults {
  domain : string;
  mx : list MxRecord;
  spf : option string;
  dkim : list DkimEntry;
  dmarc : option string;
  verdict : Verdict
}.

Record Input := mkInput { input_domain : string }.

(** [require('dns').promises]: a call either rejects or yields records.
    A TXT record is an array of chunks.  [resolve4] belongs to the
    capability although [dnsStatus] never calls it. *)
Record Resolver := mkResolver {
  resolveMx : string -> JsError + list MxRecord;
  resolveTxt : string -> JsError + list (list string);
  resolve4 : string -> JsError + list string
}.

(** What an invocation does to the outside world. *)
Inductive Event :=
| QueryMx (name : string)
| QueryTxt (name : string)
| LogWarn (msg detail : string)
| LogInfo (msg : string) (score : Z) (v : Verdict)
| LogError (msg : string) (e : JsError).

(** Computations that append to the event log and either throw or
    return. *)
Definition M (A : Type) : Type := list Event -> list Event * (JsError + A).

Definition ret {A} (a : A) : M A := fun tr => (tr, inr a).

Definition bind {A B} (m : M A) (k : A -> M B) : M B :=
  fun tr =>
    match m tr with
    | (tr', inl e) => (tr', inl e)
    | (tr', inr a) => k a tr'
    end.

Definition throw {A} (e : JsError) : M A := fun tr => (tr, inl e).

Definition emit (ev : Event) : M unit := fun tr => ((tr ++ [ev])%list, inr tt).

(** [try { body } catch (error) { handler }] *)
Definition try_catch {A} (body : M A) (handler : JsError -> M A) : M A :=
  fun tr =>
    match body tr with
    | (tr', inl e) => handler e tr'
    | (tr', inr a) => (tr', inr a)
    end.

Declare Scope js_scope.
Delimit Scope js_scope with js.
Notation "x <- c1 ;; c2" := (bind c1 (fun x => c2))
  (at level 61, c1 at next level, right associativity) : js_scope.
Notation "c1 ;; c2" := (bind c1 (fun _ => c2))
  (at level 61, right associativity) : js_scope.
Notation "'try' b 'catch' h" := (try_catch b h)
  (at level 62, b at level 61, h at level 61) : js_scope.
Open Scope js_scope.

(** [for (const x of xs) { body }] over a state that the body updates. *)
Fixpoint for_of {A S} (xs : list A) (body : S -> A -> M S) (s : S) : M S :=
  match xs with
  | [] => ret s
  | x :: rest => s' <- body s x ;; for_of rest body s'
  end.

Definition logger_warn (msg detail : string) : M unit := emit (LogWarn msg detail).
Definition logger_info (msg : string) (score : Z) (v : Verdict) : M unit :=
  emit (LogInfo msg score v).
Definition logger_error (msg : string) (e : JsError) : M unit := emit (LogError msg e).

Definition set_mx (r : Results) (v : list MxRecord) : Results :=
  mkResults (domain r) v (spf r) (dkim r) (dmarc r) (verdict r).
Definition set_spf (r : Results) (v : option string) : Results :=
  mkResults (domain r) (mx r) v (dkim r) (dmarc r) (verdict r).
Definition push_dkim (r : Results) (e : DkimEntry) : Results :=
  mkResults (domain r) (mx r) (spf r) (dkim r ++ [e])%list (dmarc r) (verdict r).
Definition set_dmarc (r : Results) (v : option string) : Results :=
  mkResults (domain r) (mx r) (spf r) (dkim r) v (verdict r).
Definition set_verdict (r : Results) (v : Verdict) : Results :=
  mkResults (domain r) (mx r) (spf r) (dkim r) (dmarc r) v.

Definition dkimSelectors : list string := ["s1"; "default"; "selector1"; "selector2"].

Section WithResolver.

Variable dns : Resolver.

Definition dns_resolveMx (name : string) : M (list MxRecord) :=
  fun tr => ((tr ++ [QueryMx name])%list, resolveMx dns name).

Definition dns_resolveTxt (name : string) : M (list (list string)) :=
  fun tr => ((tr ++ [QueryTxt name])%list, resolveTxt dns name).

(** [// Check MX records] *)
Definition check_mx (domain : string) (results : Results) : M Results :=
  try (mxRecords <- dns_resolveMx domain ;;
       ret (set_mx results
              (map (fun record => mkMx (exchange record) (priority record))
                   mxRecords)))
  catch (fun error =>
       logger_warn ("Failed to resolve MX records for " ++ domain ++ ":")
                   (message error) ;;
       ret results).

(** [// Check SPF record] *)
Definition check_spf (domain : string) (results : Results) : M Results :=
  try (txtRecords <- dns_resolveTxt domain ;;
       let spfRecord :=
         find (fun record => Js.startsWith (Js.join record) "v=spf1") txtRecords in
       match spfRecord with
       | Some record => ret (set_spf results (Some (Js.join record)))
       | None => ret results
       end)
  catch (fun error =>
       logger_warn ("Failed to resolve SPF record for " ++ domain ++ ":")
                   (message error) ;;
       ret results).

(** The body of the loop of [// Check DKIM records (common selectors)]. *)
Definition check_dkim_selector (domain : string) (results : Results)
    (selector : string) : M Results :=
  try (let dkimDomain := selector ++ "._domainkey." ++ domain in
       txtRecords <- dns_resolveTxt dkimDomain ;;
       let dkimRecord :=
         find (fun record => Js.includes (Js.join record) "v=DKIM1") txtRecords in
       match dkimRecord with
       | Some record => ret (push_dkim results (mkDkim selector (Js.join record)))
       | None => ret results
       end)
  catch (fun error => ret results).

Definition check_dkim (domain : string) (results : Results) : M Results :=
  for_of dkimSelectors (check_dkim_selector domain) results.

(** [// Check DMARC record] *)
Definition check_dmarc (domain : string) (results : Results) : M Results :=
  try (let dmarcDomain := "_dmarc." ++ domain in
       txtRecords <- dns_resolveTxt dmarcDomain ;;
       let dmarcRecord :=
         find (fun record => Js.startsWith (Js.join record) "v=DMARC1") txtRecords in
       match dmarcRecord with
       | Some record => ret (set_dmarc results (Some (Js.join record)))
       | None => ret results
       end)
  catch (fun error =>
       logger_warn ("Failed to resolve DMARC record for " ++ domain ++ ":")
                   (message error) ;;
       ret results).

(** The [score] of [// Determine verdict]. *)
Definition compute_score (results : Results) : Z :=
  let score := 0%Z in
  let score := if Nat.ltb 0 (List.length (mx results)) then (score + 25)%Z else score in
  let score := if Js.truthy (spf results) then (score + 25)%Z else score in
  let score := if Nat.ltb 0 (List.length (dkim results)) then (score + 25)%Z else score in
  let score := if Js.truthy (dmarc results) then (score + 25)%Z else score in
  score.

Definition verdict_of_score (score : Z) : Verdict :=
  if (100 <=? score)%Z then pass
  else if (75 <=? score)%Z then warn
  else fail.

(** [// Determine verdict] *)
Definition determine_verdict (domain : string) (results : Results) : M Results :=
  let score := compute_score results in
  let results := set_verdict results (verdict_of_score score) in
  logger_info ("DNS status check for " ++ domain ++ ":") score (verdict results) ;;
  ret results.

Definition dnsStatus (input : Input) : M Results :=
  let domain := input_domain input in
  try (let results := mkResults domain [] None [] None unknown in
       results <- check_mx domain results ;;
       results <- check_spf domain results ;;
       results <- check_dkim domain results ;;
       results <- check_dmarc domain results ;;
       determine_verdict domain results)
  catch (fun error =>
       logger_error "DNS status check failed:" error ;;
       throw error).

End WithResolver.

(** One invocation, started with an empty event log. *)
Definition run {A} (m : M A) : list Event * (JsError + A) := m [].

Definition events {A} (m : M A) : list Event := fst (run m).
Definition outcome {A} (m : M A) : JsError + A := snd (run m).

Definition is_query (ev : Event) : bool :=
  match ev with
  | QueryMx _ | QueryTxt _ => true
  | _ => false
  end.

(** The resolver calls of a log, in the order issued. *)
Definition queries (tr : list Event) : list Event := filter is_query tr.

(** The score written to the log by [logger.info], if any. *)
Definition logged_score (tr : list Event) : option Z :=
  match find (fun ev => match ev with LogInfo _ _ _ => true | _ => false end) tr with
  | Some (LogInfo _ score _) => Some score
  | _ => None
  end.

End Tool.

(** ** The DNS verification script

    The sections of the script that decide the summary, and the two
    sub-checks (mail server among the MX records, SPF syntax) the
    statements speak of.  The reverse-DNS and connectivity sections only
    print diagnostics; they set no variable the summary reads and are
    left out. *)

Module Script.

(** [grep] with the patterns of the script: a pattern is a list of
    alternatives (the script separates them by a backslash and a bar), an
    alternative a sequence of atoms; in a basic regular expression a dot
    stands for any character and the other characters the script uses
    stand for themselves. *)
Inductive Atom := Lit (c : ascii) | AnyChar.
Definition Branch := list Atom.
Definition Pattern := list Branch.

Definition atom_matches (a : Atom) (c : ascii) : bool :=
  match a with
  | Lit x => Ascii.eqb x c
  | AnyChar => true
  end.

(** The alternative matches at the start of [s]. *)
Fixpoint matches_here (b : Branch) (s : string) : bool :=
  match b with
  | [] => true
  | a :: b' =>
      match s with
      | EmptyString => false
      | String c s' => atom_matches a c && matches_here b' s'
      end
  end.

(** The alternative matches at some position of [s]. *)
Fixpoint matches_somewhere (b : Branch) (s : string) : bool :=
  if matches_here b s then true
  else match s with
       | EmptyString => false
       | String _ s' => matches_somewhere b s'
       end.

Definition line_matches (p : Pattern) (line : string) : bool :=
  existsb (fun b => matches_somewhere b line) p.

(** [... | grep p]: the matching lines; [... | grep -q p]: is there one. *)
Definition grep (p : Pattern) (out : list string) : list string :=
  filter (line_matches p) out.
Definition grep_q (p : Pattern) (out : list string) : bool :=
  existsb (line_matches p) out.

(** A word used as a pattern: host names and the literal tags of the
    script contain no special character but the dot. *)
Fixpoint bre (word : string) : Branch :=
  match word with
  | EmptyString => []
  | String c rest => (if Ascii.eqb c "." then AnyChar else Lit c) :: bre rest
  end.

(** [[ -n "$X" ]] for [X=$(command)]: command substitution drops the
    trailing newlines, so the value is non-empty when some line is. *)
Definition sh_n (out : list string) : bool :=
  existsb (fun line => negb (String.eqb line EmptyString)) out.

Inductive RRType := MX | A | TXT.

(** [dig +short <type> <name>]: the lines it prints. *)
Record Dig := mkDig { dig_short : RRType -> string -> list string }.

Record Config := mkConfig { DOMAIN : string; MAIL_SERVER : string }.

(** The two assignments at the top of the script. *)
Definition mailhero : Config := mkConfig "mailhero.in" "mail.mailhero.in".

Definition DKIM_SELECTORS : list string := ["s1"; "default"; "selector1"; "mail"].

Definition TOTAL : Z := 5.

(** The three lines one of which closes the summary. *)
Inductive Summary := Excellent | Good | NeedsWork.

Section Run.

Variable cfg : Config.
Variable dig : Dig.

(** [# Check MX Records] *)
Definition MX_RESULT : list string := dig_short dig MX (DOMAIN cfg).

(** Whether the mail server is reported as found in the MX records;
    nothing is reported when there is no MX output. *)
Definition mx_server_found : option bool :=
  if sh_n MX_RESULT then Some (grep_q [bre (MAIL_SERVER cfg)] MX_RESULT)
  else None.

(** [# Check A Record for mail server] *)
Definition A_RESULT : list string := dig_short dig A (MAIL_SERVER cfg).

(** [# Check SPF Record] *)
Definition SPF_RESULT : list string :=
  grep [bre "v=spf1"] (dig_short dig TXT (DOMAIN cfg)).

(** [# Validate SPF syntax] *)
Definition spf_appears_valid : option bool :=
  if sh_n SPF_RESULT
  then Some (grep_q [bre "include:"; bre "a:"; bre "mx"; bre "ip4:"; bre "ip6:"]
                    SPF_RESULT)
  else None.

(** [# Check DKIM Records] *)
Definition DKIM_RESULT (selector : string) : list string :=
  let DKIM_DOMAIN := selector ++ "._domainkey." ++ DOMAIN cfg in
  grep [bre "v=DKIM1"] (dig_short dig TXT DKIM_DOMAIN).

Definition DKIM_FOUND : bool :=
  fold_left (fun found selector => if sh_n (DKIM_RESULT selector) then true else found)
            DKIM_SELECTORS false.

(** [# Check DMARC Record] *)
Definition DMARC_RESULT : list string :=
  let DMARC_DOMAIN := "_dmarc." ++ DOMAIN cfg in
  grep [bre "v=DMARC1"] (dig_short dig TXT DMARC_DOMAIN).

(** [# Check DMARC policy] *)
Definition dmarc_enforced : option bool :=
  if sh_n DMARC_RESULT
  then Some (grep_q [bre "p=reject"; bre "p=quarantine"] DMARC_RESULT)
  else None.

(** [# Calculate score] *)
Definition SCORE : Z :=
  let SCORE := 0%Z in
  let SCORE := if sh_n MX_RESULT then (SCORE + 1)%Z else SCORE in
  let SCORE := if sh_n A_RESULT then (SCORE + 1)%Z else SCORE in
  let SCORE := if sh_n SPF_RESULT then (SCORE + 1)%Z else SCORE in
  let SCORE := if DKIM_FOUND then (SCORE + 1)%Z else SCORE in
  let SCORE := if sh_n DMARC_RESULT then (SCORE + 1)%Z else SCORE in
  SCORE.

Definition summary : Summary :=
  if (SCORE =? TOTAL)%Z then Excellent
  else if (3 <=? SCORE)%Z then Good
  else NeedsWork.

End Run.

(** The verdict each closing line stands for. *)
Definition summary_verdict (s : Summary) : Tool.Verdict :=
  match s with
  | Excellent => Tool.pass
  | Good => Tool.warn
  | NeedsWork => Tool.fail
  end.

End Script.

(** ** What the resolver answers say

    The flags and entries the statements below speak of, read off the
    answers of the resolver: a rejected lookup counts as no record. *)

Module Answers.

Import Tool.

Section WithResolver.

Variable dns : Resolver.

Definition mx_records (name : string) : list MxRecord :=
  match resolveMx dns name with
  | inr records => records
  | inl _ => []
  end.

Definition txt_records (name : string) : list (list string) :=
  match resolveTxt dns name with
  | inr records => records
  | inl _ => []
  end.

Definition a_records (name : string) : list string :=
  match resolve4 dns name with
  | inr addresses => addresses
  | inl _ => []
  end.

(** The lookup was rejected or gave no record. *)
Definition absent {A} (answer : JsError + list A) : Prop :=
  match answer with
  | inl _ => True
  | inr records => records = []
  end.

Definition nonempty {A} (l : list A) : bool :=
  match l with
  | [] => false
  | _ :: _ => true
  end.

(** The first TXT entry of the domain whose value starts with [v=spf1]. *)
Definition spf_entry (d : string) : option (list string) :=
  find (fun record => Js.startsWith (Js.join record) "v=spf1") (txt_records d).

(** The first TXT entry at the selector's name whose value contains
    [v=DKIM1]. *)
Definition dkim_entry (d selector : string) : option (list string) :=
  find (fun record => Js.includes (Js.join record) "v=DKIM1")
       (txt_records (selector ++ "._domainkey." ++ d)).

Definition dmarc_entry (d : string) : option (list string) :=
  find (fun record => Js.startsWith (Js.join record) "v=DMARC1")
       (txt_records ("_dmarc." ++ d)).

Definition isSome {A} (o : option A) : bool :=
  match o with
  | Some _ => true
  | None => false
  end.

Definition mx_present (d : string) : bool := nonempty (mx_records d).
Definition a_present (host : string) : bool := nonempty (a_records host).
Definition spf_present (d : string) : bool := isSome (spf_entry d).
Definition dkim_matched (d selector : string) : bool := isSome (dkim_entry d selector).
Definition dkim_present (d : string) : bool := existsb (dkim_matched d) dkimSelectors.
Definition dmarc_present (d : string) : bool := isSome (dmarc_entry d).

(** The [dkim] entries the selectors give, in the order of the list. *)
Definition dkim_entries (d : string) (selectors : list string) : list DkimEntry :=
  flat_map (fun selector =>
              match dkim_entry d selector with
              | Some record => [mkDkim selector (Js.join record)]
              | None => []
              end) selectors.

(** One turn of the selector loop, on the [results] object. *)
Definition dkim_step (d : string) (r : Results) (selector : string) : Results :=
  match dkim_entry d selector with
  | Some record => push_dkim r (mkDkim selector (Js.join record))
  | None => r
  end.

Definition count_true (flags : list bool) : Z :=
  Z.of_nat (List.length (filter (fun b => b) flags)).

(** The events of each block of [dnsStatus]. *)
Definition mx_events (d : string) : list Event :=
  QueryMx d ::
  match resolveMx dns d with
  | inl error => [LogWarn ("Failed to resolve MX records for " ++ d ++ ":") (message error)]
  | inr _ => []
  end.

Definition spf_events (d : string) : list Event :=
  QueryTxt d ::
  match resolveTxt dns d with
  | inl error => [LogWarn ("Failed to resolve SPF record for " ++ d ++ ":") (message error)]
  | inr _ => []
  end.

Definition dkim_events (d : string) (selectors : list string) : list Event :=
  map (fun selector => QueryTxt (selector ++ "._domainkey." ++ d)) selectors.

Definition dmarc_events (d : string) : list Event :=
  QueryTxt ("_dmarc." ++ d) ::
  match resolveTxt dns ("_dmarc." ++ d) with
  | inl error => [LogWarn ("Failed to resolve DMARC record for " ++ d ++ ":") (message error)]
  | inr _ => []
  end.

(** The report and the score, as functions of the answers. *)
Definition report_checks (d : string) : Results :=
  mkResults d (mx_records d) (option_map Js.join (spf_entry d))
            (dkim_entries d dkimSelectors) (option_map Js.join (dmarc_entry d)) unknown.

Definition score (d : string) : Z := compute_score (report_checks d).

Definition report (d : string) : Results :=
  set_verdict (report_checks d) (verdict_of_score (score d)).

Definition trace (d : string) : list Event :=
  (mx_events d ++ spf_events d ++ dkim_events d dkimSelectors ++ dmarc_events d
   ++ [LogInfo ("DNS status check for " ++ d ++ ":") (score d) (verdict (report d))])%list.

End WithResolver.

End Answers.

(** ** Notions the statements use *)

(** [l1] is [l2] with some elements left out, the order kept. *)
Inductive Subseq {A : Type} : list A -> list A -> Prop :=
| Subseq_nil : Subseq [] []
| Subseq_skip x l1 l2 : Subseq l1 l2 -> Subseq l1 (x :: l2)
| Subseq_keep x l1 l2 : Subseq l1 l2 -> Subseq (x :: l1) (x :: l2).

(** An invocation that throws without having called the resolver. *)
Definition rejected_before_lookup {A} (m : Tool.M A) : Prop :=
  (exists e, Tool.outcome m = inl e) /\ Tool.queries (Tool.events m) = [].

(** [word] and [mid] agree character by character, a dot of [word]
    agreeing with any character. *)
Fixpoint dot_eqb (word mid : string) : bool :=
  match word, mid with
  | EmptyString, EmptyString => true
  | String a word', String c mid' =>
      (Ascii.eqb a "." || Ascii.eqb a c) && dot_eqb word' mid'
  | _, _ => false
  end.

Fixpoint nodot (word : string) : bool :=
  match word with
  | EmptyString => true
  | String a word' => negb (Ascii.eqb a ".") && nodot word'
  end.

(** The MX and SPF checks in the words of the specification, on the lines
    [dig +short] prints: an MX line is the priority, a space and the
    exchange; a TXT line is the value between double quotes. *)
Module Spec.

Definition lower_char (c : ascii) : ascii :=
  let n := nat_of_ascii c in
  if Nat.leb 65 n && Nat.leb n 90 then ascii_of_nat (n + 32) else c.

Fixpoint lower (s : string) : string :=
  match s with
  | EmptyString => EmptyString
  | String c rest => String (lower_char c) (lower rest)
  end.

(** Trailing-dot normalization. *)
Fixpoint strip_dot (s : string) : string :=
  match s with
  | EmptyString => EmptyString
  | String c rest =>
      match rest with
      | EmptyString => if Ascii.eqb c "." then EmptyString else s
      | String _ _ => String c (strip_dot rest)
      end
  end.

(** The exchange of an MX line. *)
Fixpoint exchange_of (line : string) : string :=
  match line with
  | EmptyString => EmptyString
  | String c rest => if Ascii.eqb c " " then rest else exchange_of rest
  end.

Definition same_host (a b : string) : bool :=
  String.eqb (lower (strip_dot a)) (lower (strip_dot b)).

(** Some exchange equals [mailHostname], case-insensitively and up to the
    trailing dot. *)
Definition mx_matchesExpectation (mailHostname : string) (mx_lines : list string) : bool :=
  existsb (fun line => same_host (exchange_of line) mailHostname) mx_lines.

Definition dquote : ascii := ascii_of_nat 34.

(** A TXT value as [dig +short] prints it. *)
Definition quoted (value : string) : string :=
  String dquote (value ++ String dquote EmptyString).

(** The value of a printed TXT line. *)
Definition txt_value (line : string) : string :=
  match line with
  | EmptyString => EmptyString
  | String _ rest => String.substring 0 (String.length rest - 1) rest
  end.

(** Some TXT entry has a value that starts with [v=spf1]. *)
Definition spf_present (txt_lines : list string) : bool :=
  existsb (fun line => Js.startsWith (txt_value line) "v=spf1") txt_lines.

(** The score of the four-factor rubric as the specification words it:
    MX, A, SPF and DKIM, a quarter each. *)
Definition four_factor_score (dns : Tool.Resolver) (d mailHostname : string) : Z :=
  (25 * Answers.count_true
          [Answers.mx_present dns d; Answers.a_present dns mailHostname;
           Answers.spf_present dns d; Answers.dkim_present dns d])%Z.

End Spec.

(** ** Zones used as examples *)

Module Zones.

Import Tool.

Definition ENOTFOUND : JsError := mkError "ENOTFOUND".

Fixpoint lookup {A} (table : list (string * A)) (name : string) : JsError + A :=
  match table with
  | [] => inl ENOTFOUND
  | (n, v) :: rest => if String.eqb n name then inr v else lookup rest name
  end.

(** A resolver that answers from three tables and rejects any other name. *)
Definition resolver_of (mxs : list (string * list MxRecord))
    (txts : list (string * list (list string)))
    (addrs : list (string * list string)) : Resolver :=
  mkResolver (lookup mxs) (lookup txts) (lookup addrs).

(** No record at all: every lookup is rejected. *)
Definition no_records : Resolver := resolver_of [] [] [].

(** Lookups that succeed with no record, for MX, and are rejected, for TXT. *)
Definition empty_answers : Resolver :=
  resolver_of [("example.com", [])] [] [].

(** A zone that publishes a DMARC policy and nothing else. *)
Definition only_dmarc : Resolver :=
  resolver_of [] [("_dmarc.example.com", [["v=DMARC1; p=none;"]])] [].

(** The end-to-end scenario of the specification. *)
Definition example_com : Resolver :=
  resolver_of
    [("example.com", [mkMx "mail.example.com" 10])]
    [("example.com", [["google-site-verification=abc"]; ["v=spf1 mx -all"]]);
     ("s1._domainkey.example.com", [["v=DKIM1; k=rsa; "; "p=AAAB"]]);
     ("_dmarc.example.com", [["v=DMARC1; p=quarantine;"]])]
    [("mail.example.com", ["203.0.113.5"])].

(** The same zone seen through a resolver that also answers A queries for
    another host. *)
Definition example_com' : Resolver :=
  resolver_of
    [("example.com", [mkMx "mail.example.com" 10])]
    [("example.com", [["google-site-verification=abc"]; ["v=spf1 mx -all"]]);
     ("s1._domainkey.example.com", [["v=DKIM1; k=rsa; "; "p=AAAB"]]);
     ("_dmarc.example.com", [["v=DMARC1; p=quarantine;"]])]
    [("mail.example.com", ["203.0.113.5"]); ("www.example.com", ["203.0.113.6"])].

(** DKIM keys at two of the four candidate selectors. *)
Definition two_selectors : Resolver :=
  resolver_of []
    [("default._domainkey.example.com", [["k=rsa; v=DKIM1; p=AAAB"]]);
     ("selector2._domainkey.example.com", [["other"]; ["v=DKIM1; p=AAAC"]]);
     ("selector1._domainkey.example.com", [["v=spf1 -all"]])]
    [].

(** An SPF value without any recognized mechanism. *)
Definition spf_foo : Resolver :=
  resolver_of [] [("example.com", [["v=spf1 foo"]])] [].

Definition rr_eqb (a b : Script.RRType) : bool :=
  match a, b with
  | Script.MX, Script.MX | Script.A, Script.A | Script.TXT, Script.TXT => true
  | _, _ => false
  end.

Fixpoint dig_lookup (table : list (Script.RRType * string * list string))
    (t : Script.RRType) (name : string) : list string :=
  match table with
  | [] => []
  | (t', n, lines) :: rest =>
      if rr_eqb t' t && String.eqb n name then lines else dig_lookup rest t name
  end.

(** A [dig] that prints the lines of a table and nothing for other
    questions. *)
Definition dig_of (table : list (Script.RRType * string * list string)) : Script.Dig :=
  Script.mkDig (dig_lookup table).

(** The exchange is published in upper case. *)
Definition upper_case_mx : Script.Dig :=
  dig_of [(Script.MX, "mailhero.in", ["10 MAIL.MAILHERO.IN."])].

(** The exchange is another host, whose name contains the mail server's. *)
Definition longer_mx : Script.Dig :=
  dig_of [(Script.MX, "mailhero.in", ["10 mail.mailhero.in.example.net."])].

Definition plain_mx : Script.Dig :=
  dig_of [(Script.MX, "mailhero.in", ["20 backup.example.net."; "10 mail.mailhero.in."])].


Definition spf_mx_all : Script.Dig :=
  dig_of [(Script.TXT, "mailhero.in", [Spec.quoted "v=spf1 mx -all"])].

Definition spf_foo_script : Script.Dig :=
  dig_of [(Script.TXT, "mailhero.in", [Spec.quoted "v=spf1 foo"])].

(** Every record of the rubric is there. *)
Definition all_five : Script.Dig :=
  dig_of [(Script.MX, "mailhero.in", ["10 mail.mailhero.in."]);
          (Script.A, "mail.mailhero.in", ["203.0.113.5"]);
          (Script.TXT, "mailhero.in", [Spec.quoted "v=spf1 mx -all"]);
          (Script.TXT, "s1._domainkey.mailhero.in", [Spec.quoted "v=DKIM1; k=rsa; p=AAAB"]);
          (Script.TXT, "_dmarc.mailhero.in", [Spec.quoted "v=DMARC1; p=quarantine;"])].

End Zones.

(** ** Notions for the remaining checks *)

Module More.

(** [tag] occurs in [line]. *)
Definition contains (line tag : string) : Prop :=
  exists pre post, line = (pre ++ tag ++ post)%string.

(** The lookup was rejected. *)
Definition rejected {A} (answer : Tool.JsError + A) : bool :=
  match answer with
  | inl _ => true
  | inr _ => false
  end.

Definition is_warn (ev : Tool.Event) : bool :=
  match ev with
  | Tool.LogWarn _ _ => true
  | _ => false
  end.

Definition is_error (ev : Tool.Event) : bool :=
  match ev with
  | Tool.LogError _ _ => true
  | _ => false
  end.

Definition b2n (b : bool) : nat := if b then 1 else 0.

(** Every line [dig1] prints, [dig2] prints too. *)
Definition dig_included (dig1 dig2 : Script.Dig) : Prop :=
  forall t name line,
    In line (Script.dig_short dig1 t name) -> In line (Script.dig_short dig2 t name).

(** The closing lines of the script, from worst to best. *)
Definition summary_rank (s : Script.Summary) : nat :=
  match s with
  | Script.NeedsWork => 0
  | Script.Good => 1
  | Script.Excellent => 2
  end.

(** A [dig] that prints nothing. *)
Definition silent : Script.Dig := Zones.dig_of [].

(** A zone with an MX record and an SPF record only: two of the lines of
    [Zones.all_five]. *)
Definition mx_and_spf : Script.Dig :=
  Zones.dig_of [(Script.MX, "mailhero.in", ["10 mail.mailhero.in."]);
                (Script.TXT, "mailhero.in", [Spec.quoted "v=spf1 mx -all"])].

(** A DMARC record whose own policy is [none] and whose policy for
    subdomains is [reject]. *)
Definition dmarc_subdomain_only : Script.Dig :=
  Zones.dig_of [(Script.TXT, "_dmarc.mailhero.in",
                 [Spec.quoted "v=DMARC1; p=none; sp=reject"])].

End More.

(** ** Effects of the other handlers

    Computations over a store [St] (the log, and the object a function
    builds up step by step) that either throw or return. *)

Module Eff.

Definition M (St A : Type) : Type := St -> St * (Tool.JsError + A).

Definition ret {St A} (a : A) : M St A := fun st => (st, inr a).

Definition bind {St A B} (m : M St A) (k : A -> M St B) : M St B :=
  fun st =>
    match m st with
    | (st', inl e) => (st', inl e)
    | (st', inr a) => k a st'
    end.

Definition throw {St A} (e : Tool.JsError) : M St A := fun st => (st, inl e).

Definition get {St} : M St St := fun st => (st, inr st).

Definition modify {St} (f : St -> St) : M St unit := fun st => (f st, inr tt).

(** [try { body } catch (error) { handler }]: the handler starts from the
    store as the body left it. *)
Definition try_catch {St A} (body : M St A) (handler : Tool.JsError -> M St A) : M St A :=
  fun st =>
    match body st with
    | (st', inl e) => handler e st'
    | (st', inr a) => (st', inr a)
    end.

(** An awaited call of the outside world that rejects or resolves. *)
Definition await {St A} (answer : Tool.JsError + A) : M St A := fun st => (st, answer).

Declare Scope eff_scope.
Delimit Scope eff_scope with eff.
Notation "x <- c1 ;; c2" := (bind c1 (fun x => c2))
  (at level 61, c1 at next level, right associativity) : eff_scope.
Notation "c1 ;; c2" := (bind c1 (fun _ => c2))
  (at level 61, right associativity) : eff_scope.
Notation "'try' b 'catch' h" := (try_catch b h)
  (at level 62, b at level 61, h at level 61) : eff_scope.

End Eff.

(** ** The service tool: [health] and [getMetrics] *)

Module Admin.

Import Eff.
Open Scope eff_scope.

(** A JavaScript number as [parseInt] can give it. *)
Inductive JsNum := NaN | Num (z : Z) | Infinity (negative : bool).

(** A column value of a row, or the argument of [parseInt]. *)
Inductive JsValue := undefined | str (s : string) | num (n : JsNum).

Definition Row := list (string * JsValue).

(** [row.column] *)
Fixpoint prop (row : Row) (column : string) : JsValue :=
  match row with
  | [] => undefined
  | (c, v) :: rest => if String.eqb c column then v else prop rest column
  end.

Record QueryResult := mkQueryResult { rows : list Row; rowCount : Z }.

Record ExecResult := mkExec { stdout : string; stderr : string }.

(** The outside world of the two functions: the clock, the database, the
    shell, and the built-in [parseInt]. *)
Record World := mkWorld {
  now : string;
  query : string -> list string -> Tool.JsError + QueryResult;
  execAsync : string -> Tool.JsError + ExecResult;
  parseInt : JsValue -> JsNum
}.

Inductive Status := unknown | up | down.

(** The [health] object. *)
Record Health := mkHealth {
  timestamp : string;
  smtp : Status;
  imap : Status;
  webmail : Status;
  database : Status;
  queueDepth : JsNum;
  storageFreeGB : JsNum;
  activeUsers : JsNum;
  version : string
}.

Record Users := mkUsers { total : JsNum; active : JsNum; suspended : JsNum }.
Record Mail := mkMail { sent_today : JsNum; received_today : JsNum; queue_depth : JsNum }.
Record Storage := mkStorage { used_gb : JsNum; free_gb : JsNum; quota_usage_percent : JsNum }.
Record Performance := mkPerformance { avg_response_time_ms : JsNum; error_rate_percent : JsNum }.

(** The [metrics] object. *)
Record Metrics := mkMetrics {
  m_timestamp : string;
  users : Users;
  mail : Mail;
  storage : Storage;
  performance : Performance
}.

Inductive Event :=
| Query (sql : string) (params : list string)
| Exec (command : string)
| LogInfo (msg : string) (h : Health)
| LogWarn (msg : string) (e : Tool.JsError)
| LogError (msg : string) (e : Tool.JsError).

(** [x || 0] *)
Definition or_zero (x : JsNum) : JsNum :=
  match x with
  | NaN => Num 0
  | Num 0 => Num 0
  | _ => x
  end.

(** [s.replace(pattern, replacement)] for a pattern that is a string:
    the first occurrence is replaced. *)
Fixpoint replace (s pattern replacement : string) : string :=
  if String.prefix pattern s
  then (replacement ++ String.substring (String.length pattern)
                         (String.length s - String.length pattern) s)%string
  else match s with
       | EmptyString => EmptyString
       | String c rest => String c (replace rest pattern replacement)
       end.

(** [rows[0]], read for one of its columns. *)
Definition first_row {St} (rs : list Row) (column : string) : M St Row :=
  match rs with
  | [] => throw (Tool.mkError
                   ("Cannot read properties of undefined (reading '" ++ column ++ "')"))
  | row :: _ => ret row
  end.

Definition user_stats_sql : string := "
      SELECT 
        COUNT(*) as total,
        COUNT(*) FILTER (WHERE status = 'active') as active,
        COUNT(*) FILTER (WHERE status = 'suspended') as suspended
      FROM users
    ".

Definition df_command : string := "df -BG / | tail -1 | awk '{print $4}'".

Section InWorld.

Variable w : World.

(** The store of [health]: the object under construction and the log. *)
Record HStore := mkHStore { obj : Health; hlog : list Event }.

Definition emit (ev : Event) : M HStore unit :=
  modify (fun st => mkHStore (obj st) (hlog st ++ [ev])%list).

Definition assign (f : Health -> Health) : M HStore unit :=
  modify (fun st => mkHStore (f (obj st)) (hlog st)).

Definition db_query (sql : string) (params : list string) : M HStore QueryResult :=
  emit (Query sql params) ;; await (query w sql params).

Definition sh_exec (command : string) : M HStore ExecResult :=
  emit (Exec command) ;; await (execAsync w command).

Definition set_database (v : Status) (h : Health) : Health :=
  mkHealth (timestamp h) (smtp h) (imap h) (webmail h) v (queueDepth h)
           (storageFreeGB h) (activeUsers h) (version h).
Definition set_activeUsers (v : JsNum) (h : Health) : Health :=
  mkHealth (timestamp h) (smtp h) (imap h) (webmail h) (database h) (queueDepth h)
           (storageFreeGB h) v (version h).
Definition set_smtp (v : Status) (h : Health) : Health :=
  mkHealth (timestamp h) v (imap h) (webmail h) (database h) (queueDepth h)
           (storageFreeGB h) (activeUsers h) (version h).
Definition set_imap (v : Status) (h : Health) : Health :=
  mkHealth (timestamp h) (smtp h) v (webmail h) (database h) (queueDepth h)
           (storageFreeGB h) (activeUsers h) (version h).
Definition set_webmail (v : Status) (h : Health) : Health :=
  mkHealth (timestamp h) (smtp h) (imap h) v (database h) (queueDepth h)
           (storageFreeGB h) (activeUsers h) (version h).
Definition set_queueDepth (v : JsNum) (h : Health) : Health :=
  mkHealth (timestamp h) (smtp h) (imap h) (webmail h) (database h) v
           (storageFreeGB h) (activeUsers h) (version h).
Definition set_storageFreeGB (v : JsNum) (h : Health) : Health :=
  mkHealth (timestamp h) (smtp h) (imap h) (webmail h) (database h) (queueDepth h)
           v (activeUsers h) (version h).

(** The object [health] starts as. *)
Definition new_health : Health :=
  mkHealth (now w) unknown unknown unknown unknown (Num 0) (Num 0) (Num 0) "1.0.0".

Definition health (input : unit) : M HStore Health :=
  try (assign (fun _ => new_health) ;;
       (* Check database connectivity *)
       (try (_ <- db_query "SELECT 1" [] ;;
             assign (set_database up) ;;
             userCount <- db_query "SELECT COUNT(*) as count FROM users WHERE status = $1"
                                   ["active"] ;;
             row <- first_row (rows userCount) "count" ;;
             assign (set_activeUsers (parseInt w (prop row "count"))))
        catch (fun error =>
             assign (set_database down) ;;
             emit (LogError "Database health check failed:" error))) ;;
       (* Check SMTP service *)
       (try (assign (set_smtp up)) catch (fun error => assign (set_smtp down))) ;;
       (* Check IMAP service *)
       (try (assign (set_imap up)) catch (fun error => assign (set_imap down))) ;;
       (* Check webmail service *)
       (try (assign (set_webmail up)) catch (fun error => assign (set_webmail down))) ;;
       (* Get queue depth *)
       (try (assign (set_queueDepth (Num 0)))
        catch (fun error => emit (LogWarn "Failed to get queue depth:" error))) ;;
       (* Get storage info *)
       (try (result <- sh_exec df_command ;;
             assign (set_storageFreeGB
                    (or_zero (parseInt w (str (replace (stdout result) "G" ""))))))
        catch (fun error => emit (LogWarn "Failed to get storage info:" error))) ;;
       st <- get ;;
       emit (LogInfo "Health check completed:" (obj st)) ;;
       ret (obj st))
  catch (fun error =>
       emit (LogError "Health check failed:" error) ;;
       throw error).

(** One call of [health]: the [health] object does not exist before. *)
Definition run_health : HStore * (Tool.JsError + Health) :=
  health tt (mkHStore new_health []).

Definition set_users (m : Metrics) (u : Users) : Metrics :=
  mkMetrics (m_timestamp m) u (mail m) (storage m) (performance m).

Definition new_metrics : Metrics :=
  mkMetrics (now w) (mkUsers (Num 0) (Num 0) (Num 0))
            (mkMail (Num 0) (Num 0) (Num 0))
            (mkStorage (Num 0) (Num 0) (Num 0))
            (mkPerformance (Num 0) (Num 0)).

Definition log (ev : Event) : M (list Event) unit :=
  modify (fun l => (l ++ [ev])%list).

Definition getMetrics : M (list Event) Metrics :=
  try (let metrics := new_metrics in
       (* Get user statistics *)
       userStats <- (log (Query user_stats_sql []) ;; await (query w user_stats_sql [])) ;;
       match rows userStats with
       | row :: _ =>
           ret (set_users metrics
                  (mkUsers (parseInt w (prop row "total"))
                           (parseInt w (prop row "active"))
                           (parseInt w (prop row "suspended"))))
       | [] => ret metrics
       end)
  catch (fun error =>
       log (LogError "Failed to get metrics:" error) ;;
       throw error).

Definition run_getMetrics : list Event * (Tool.JsError + Metrics) := getMetrics [].

End InWorld.

Definition is_query (ev : Event) : bool :=
  match ev with
  | Query _ _ => true
  | _ => false
  end.

Definition is_exec (ev : Event) : bool :=
  match ev with
  | Exec _ => true
  | _ => false
  end.


(** What the count query gives, when both queries of [health] resolve and
    the second has a row. *)
Definition active_count (w : World) : option JsValue :=
  match query w "SELECT 1" [] with
  | inl _ => None
  | inr _ =>
      match query w "SELECT COUNT(*) as count FROM users WHERE status = $1" ["active"] with
      | inr (mkQueryResult (row :: _) _) => Some (prop row "count")
      | _ => None
      end
  end.

Definition count_sql : string := "SELECT COUNT(*) as count FROM users WHERE status = $1".

(** What [df] gives for the free storage, when it runs. *)
Definition storage_free (w : World) : JsNum :=
  match execAsync w df_command with
  | inr result => or_zero (parseInt w (str (replace (stdout result) "G" "")))
  | inl _ => Num 0
  end.

(** The object [health] returns and the log it leaves, as functions of
    the answers of the world. *)
Definition health_report (w : World) : Health :=
  mkHealth (now w) up up up
    (match active_count w with Some _ => up | None => down end)
    (Num 0) (storage_free w)
    (match active_count w with Some v => parseInt w v | None => Num 0 end)
    "1.0.0".

Definition database_log (w : World) : list Event :=
  Query "SELECT 1" [] ::
  match query w "SELECT 1" [] with
  | inl e => [LogError "Database health check failed:" e]
  | inr _ =>
      Query count_sql ["active"] ::
      match query w count_sql ["active"] with
      | inl e => [LogError "Database health check failed:" e]
      | inr (mkQueryResult [] _) =>
          [LogError "Database health check failed:"
             (Tool.mkError "Cannot read properties of undefined (reading 'count')")]
      | inr (mkQueryResult (_ :: _) _) => []
      end
  end.

Definition storage_log (w : World) : list Event :=
  Exec df_command ::
  match execAsync w df_command with
  | inl e => [LogWarn "Failed to get storage info:" e]
  | inr _ => []
  end.

Definition health_log (w : World) : list Event :=
  (database_log w ++ storage_log w ++
   [LogInfo "Health check completed:" (health_report w)])%list.

End Admin.

(** ** The router of the tools, and the error handler of the application *)

Module Router.

Import Eff.
Open Scope eff_scope.

Section Types.

(** The JSON a request carries and the JSON a handler gives back. *)
Variables Body Result : Type.

(** A handler, seen from the router: it rejects or resolves. *)
Definition Handler : Type := Body -> Tool.JsError + Result.

(** An entry of [tools]; its [inputSchema], which the router only copies
    into the list of tools, is not represented. *)
Record ToolDef := mkTool { name : string; description : string; handler : Handler }.

(** The handlers the table refers to, by module. *)
Record Handlers := mkHandlers {
  userTools_provisionUser : Handler;
  userTools_suspendUser : Handler;
  userTools_setPassword : Handler;
  userTools_createAlias : Handler;
  userTools_removeAlias : Handler;
  userTools_setForwarding : Handler;
  userTools_setQuota : Handler;
  mailTools_sendMail : Handler;
  mailTools_fetchMail : Handler;
  mailTools_setFilter : Handler;
  mailTools_setAutoreply : Handler;
  adminTools_dnsStatus : Handler;
  adminTools_health : Handler
}.

(** What the runtime and the absent validation middleware contribute:
    the property names every object inherits, and what [validateTool]
    does with a request. *)
Record Request := mkRequest { toolName : string; body : Body }.

Inductive ResponseBody :=
| ToolList (listed : list (string * string)) (count : Z)
| Json (result : Result)
| NotFound (error : string)
| ExecutionFailed (error message : string)
| InternalError (error : string).

Record Response := mkResponse { status : Z; json : ResponseBody }.

(** A middleware calls [next()], calls [next(err)] or answers itself. *)
Inductive Middleware := Next | NextError (err : Tool.JsError) | Respond (r : Response).

Inductive Event :=
| LogExecuting (toolName : string) (input : Body)
| Call (toolName : string) (input : Body)
| LogSuccess (toolName : string) (result : Result)
| LogFailed (toolName : string) (message : string)
| LogUnhandled (err : Tool.JsError).

Variable hs : Handlers.
Variable inherited : string -> bool.
Variable validateTool : Request -> Middleware.

Definition tools : list (string * ToolDef) :=
  [("provisionUser",
    mkTool "provisionUser" "Create a new mailbox for a user" (userTools_provisionUser hs));
   ("suspendUser",
    mkTool "suspendUser" "Suspend or delete a user mailbox" (userTools_suspendUser hs));
   ("setPassword",
    mkTool "setPassword" "Change or reset user password" (userTools_setPassword hs));
   ("createAlias", mkTool "createAlias" "Create email alias" (userTools_createAlias hs));
   ("removeAlias", mkTool "removeAlias" "Remove email alias" (userTools_removeAlias hs));
   ("setForwarding",
    mkTool "setForwarding" "Set email forwarding rules" (userTools_setForwarding hs));
   ("setQuota", mkTool "setQuota" "Set user mailbox quota" (userTools_setQuota hs));
   ("sendMail", mkTool "sendMail" "Send email via SMTP" (mailTools_sendMail hs));
   ("fetchMail", mkTool "fetchMail" "Fetch emails from mailbox" (mailTools_fetchMail hs));
   ("setFilter",
    mkTool "setFilter" "Set server-side email filters" (mailTools_setFilter hs));
   ("setAutoreply", mkTool "setAutoreply" "Set vacation auto-reply" (mailTools_setAutoreply hs));
   ("dnsStatus", mkTool "dnsStatus" "Check DNS configuration status" (adminTools_dnsStatus hs));
   ("health", mkTool "health" "Get system health status" (adminTools_health hs))].

Fixpoint own (table : list (string * ToolDef)) (key : string) : option ToolDef :=
  match table with
  | [] => None
  | (k, t) :: rest => if String.eqb k key then Some t else own rest key
  end.

(** [tools[toolName]]: an entry of the table, a member every object
    inherits (which has no [handler]), or [undefined]. *)
Inductive Lookup := Own (t : ToolDef) | Inherited | Missing.

Definition tools_get (key : string) : Lookup :=
  match own tools key with
  | Some t => Own t
  | None => if inherited key then Inherited else Missing
  end.

Definition log (ev : Event) : M (list Event) unit :=
  modify (fun l => (l ++ [ev])%list).

(** [await tool.handler(req.body)] *)
Definition call_handler (toolName : string) (tool : Lookup) (input : Body)
    : M (list Event) Result :=
  match tool with
  | Own t => log (Call toolName input) ;; await (handler t input)
  | _ => throw (Tool.mkError "tool.handler is not a function")
  end.

(** [GET /tools] *)
Definition list_tools : Response :=
  let toolList := map (fun entry => (name (snd entry), description (snd entry))) tools in
  mkResponse 200 (ToolList toolList (Z.of_nat (List.length toolList))).

(** The handler of [POST /tools/:toolName]. *)
Definition execute_tool (req : Request) : M (list Event) Response :=
  let toolName := toolName req in
  let tool := tools_get toolName in
  match tool with
  | Missing => ret (mkResponse 404 (NotFound ("Tool '" ++ toolName ++ "' not found")))
  | _ =>
      try (log (LogExecuting toolName (body req)) ;;
           result <- call_handler toolName tool (body req) ;;
           log (LogSuccess toolName result) ;;
           ret (mkResponse 200 (Json result)))
      catch (fun error =>
           log (LogFailed toolName (Tool.message error)) ;;
           ret (mkResponse 500 (ExecutionFailed "Tool execution failed" (Tool.message error))))
  end.

(** The error-handling middleware of the application. *)
Definition error_handler (err : Tool.JsError) : M (list Event) Response :=
  log (LogUnhandled err) ;;
  ret (mkResponse 500 (InternalError "Internal server error")).

(** [router.post('/:toolName', validateTool, ...)] *)
Definition post (req : Request) : M (list Event) Response :=
  match validateTool req with
  | Next => execute_tool req
  | NextError err => error_handler err
  | Respond r => ret r
  end.

(** One request: the log it leaves and the response. *)
Definition serve (req : Request) : list Event * (Tool.JsError + Response) := post req [].

End Types.

Arguments Next {Result}.
Arguments NextError {Result} err.
Arguments Respond {Result} r.
Arguments mkResponse {Result} status json.
Arguments status {Result} r.
Arguments json {Result} r.
Arguments ToolList {Result} listed count.
Arguments Json {Result} result.
Arguments NotFound {Result} error.
Arguments ExecutionFailed {Result} error message.
Arguments InternalError {Result} error.
Arguments mkRequest {Body} toolName body.
Arguments toolName {Body} r.
Arguments body {Body} r.
Arguments Call {Body Result} toolName input.
Arguments LogExecuting {Body Result} toolName input.
Arguments LogSuccess {Body Result} toolName result.
Arguments LogFailed {Body Result} toolName message.
Arguments LogUnhandled {Body Result} err.

Definition is_call {Body Result} (ev : Event Body Result) : bool :=
  match ev with
  | Call _ _ => true
  | _ => false
  end.

(** The names of the thirteen tools, in the order of the table. *)
Definition tool_names : list string :=
  ["provisionUser"; "suspendUser"; "setPassword"; "createAlias"; "removeAlias";
   "setForwarding"; "setQuota"; "sendMail"; "fetchMail"; "setFilter"; "setAutoreply";
   "dnsStatus"; "health"].

End Router.

(** ** Worlds used as examples *)

Module Worlds.

Import Admin.

Definition ECONNREFUSED : Tool.JsError := Tool.mkError "connect ECONNREFUSED".

(** A stand-in for [parseInt] on the values of the examples: the leading
    decimal digits of a string. *)
Definition digit (c : ascii) : option Z :=
  let n := nat_of_ascii c in
  if Nat.leb 48 n && Nat.leb n 57 then Some (Z.of_nat (n - 48)) else None.

Fixpoint digits (s : string) (acc : option Z) : option Z :=
  match s with
  | EmptyString => acc
  | String c rest =>
      match digit c with
      | Some d => digits rest (Some (match acc with Some a => 10 * a + d | None => d end)%Z)
      | None => acc
      end
  end.

Definition parse (v : JsValue) : JsNum :=
  match v with
  | str s => match digits s None with Some z => Num z | None => NaN end
  | num n => n
  | undefined => NaN
  end.

(** The database answers; 42 users are active; [df] reports 17G free. *)
Definition healthy : World :=
  mkWorld "2024-01-01T00:00:00.000Z"
    (fun sql _ =>
       if String.eqb sql "SELECT 1" then inr (mkQueryResult [[("?column?", str "1")]] 1)
       else if String.eqb sql user_stats_sql
       then inr (mkQueryResult
                   [[("total", str "50"); ("active", str "42"); ("suspended", str "8")]] 1)
       else inr (mkQueryResult [[("count", str "42")]] 1))
    (fun _ => inr (mkExec "17G" ""))
    parse.

(** The database refuses connections and there is no shell. *)
Definition broken : World :=
  mkWorld "2024-01-01T00:00:00.000Z" (fun _ _ => inl ECONNREFUSED)
    (fun _ => inl (Tool.mkError "spawn /bin/sh ENOENT")) parse.

(** [SELECT 1] succeeds, the count query gives no row. *)
Definition no_count_row : World :=
  mkWorld "2024-01-01T00:00:00.000Z" (fun _ _ => inr (mkQueryResult [] 0))
    (fun _ => inr (mkExec "0G" "")) parse.

(** Handlers that all resolve with the tool's name, but one that rejects. *)
Definition handlers_example : Router.Handlers string string :=
  Router.mkHandlers string string
    (fun _ => inr "provisionUser") (fun _ => inl (Tool.mkError "User not found"))
    (fun _ => inr "setPassword") (fun _ => inr "createAlias")
    (fun _ => inr "removeAlias") (fun _ => inr "setForwarding")
    (fun _ => inr "setQuota") (fun _ => inr "sendMail") (fun _ => inr "fetchMail")
    (fun _ => inr "setFilter") (fun _ => inr "setAutoreply")
    (fun _ => inr "dnsStatus") (fun _ => inr "health").

(** Some of the names every JavaScript object inherits. *)
Definition object_members (key : string) : bool :=
  existsb (String.eqb key) ["constructor"; "toString"; "valueOf"; "hasOwnProperty"].

Definition let_through : Router.Request string -> Router.Middleware string :=
  fun _ => Router.Next.

(** The table with [dnsStatus] bound to a resolver; the other handlers
    reject. *)
Definition dns_handlers (dns : Tool.Resolver) : Router.Handlers Tool.Input Tool.Results :=
  let other : Router.Handler Tool.Input Tool.Results :=
    fun _ => inl (Tool.mkError "not available") in
  Router.mkHandlers Tool.Input Tool.Results
    other other other other other other other other other other other
    (fun input => Tool.outcome (Tool.dnsStatus dns input)) other.

(** The table with [health] bound to a world; the other handlers reject. *)
Definition health_handlers (w : World) : Router.Handlers string Health :=
  let other : Router.Handler string Health :=
    fun _ => inl (Tool.mkError "not available") in
  Router.mkHandlers string Health
    other other other other other other other other other other other other
    (fun _ => snd (run_health w)).

End Worlds.

(** ** The user tools the router calls *)

Module Users.

Import Eff.
Open Scope eff_scope.

(** The values of query parameters, row columns and log details. *)
#[warnings="-register-all"]
Inductive Json :=
| JUndefined
| JBool (b : bool)
| JNum (z : Z)
| JStr (s : string)
| JArr (items : list Json)
| JObj (fields : list (string * Json)).

Definition Row := list (string * Json).

(** [row.column] *)
Fixpoint prop (row : Row) (column : string) : Json :=
  match row with
  | [] => JUndefined
  | (c, v) :: rest => if String.eqb c column then v else prop rest column
  end.

Record QueryResult := mkQueryResult { rows : list Row; rowCount : Z }.

(** A call of [query]: the statement and its parameters. *)
Definition DbCall : Type := string * list Json.

(** The database, which answers a call in the light of the calls made
    before it, and [bcrypt.hash]. *)
Record World := mkWorld {
  respond : list DbCall -> DbCall -> Tool.JsError + QueryResult;
  bcrypt_hash : string -> Z -> Tool.JsError + string
}.

Inductive Event :=
| Query (sql : string) (params : list Json)
| Hash (data : string) (rounds : Z)
| LogInfo (msg : string) (detail : Json)
| LogError (msg : string) (e : Tool.JsError).

(** What a tool resolves with: [{status:'created', userId, aliases}] or
    [{status:'ok'}]. *)
Inductive Reply := Created (userId : Json) (aliases : list string) | Ok.

Record ProvisionInput := mkProvision {
  p_email : string;
  p_displayName : string;
  p_password : string;
  p_quotaMB : option Z;
  p_aliases : option (list string)
}.

Record SuspendInput := mkSuspend { s_email : string; s_mode : string }.

Record PasswordInput := mkPassword {
  w_email : string;
  w_newPassword : string;
  w_forceLogout : option bool
}.

Record AliasInput := mkAlias { a_email : string; a_alias : string }.

Record ForwardingInput := mkForwarding {
  f_email : string;
  f_forwardTo : list string;
  f_keepCopy : option bool
}.

Record QuotaInput := mkQuota { q_email : string; q_quotaMB : Z }.

(** The database calls of a log, in the order made. *)
Fixpoint calls (log : list Event) : list DbCall :=
  match log with
  | [] => []
  | Query sql params :: rest => (sql, params) :: calls rest
  | _ :: rest => calls rest
  end.

Definition strings (l : list string) : Json := JArr (map JStr l).

(** A whole number inside a template string (below the size from which
    JavaScript prints an exponent). *)
Definition decimal (z : Z) : string := NilZero.string_of_int (Z.to_int z).

(** [x = default] in a destructuring. *)
Definition default {A} (x : option A) (d : A) : A :=
  match x with
  | Some v => v
  | None => d
  end.

Definition select_user : string := "SELECT id FROM users WHERE email = $1".
Definition insert_user : string :=
  "INSERT INTO users (email, display_name, password_hash, quota_mb) VALUES ($1, $2, $3, $4) RETURNING id".
Definition insert_alias : string :=
  "INSERT INTO aliases (user_id, alias_email) VALUES ($1, $2)".
Definition insert_audit : string :=
  "INSERT INTO audit_log (user_id, action, details) VALUES ($1, $2, $3)".
Definition update_status : string := "UPDATE users SET status = $1 WHERE id = $2".
Definition update_password : string :=
  "UPDATE users SET password_hash = $1, updated_at = CURRENT_TIMESTAMP WHERE id = $2".
Definition select_alias : string := "SELECT id FROM aliases WHERE alias_email = $1".
Definition delete_alias : string :=
  "DELETE FROM aliases WHERE user_id = $1 AND alias_email = $2".
Definition delete_forwarding : string := "DELETE FROM forwarding WHERE user_id = $1".
Definition insert_forwarding : string :=
  "INSERT INTO forwarding (user_id, forward_to, keep_copy) VALUES ($1, $2, $3)".
Definition update_quota : string :=
  "UPDATE users SET quota_mb = $1, updated_at = CURRENT_TIMESTAMP WHERE id = $2".

Section InWorld.

Variable w : World.

Definition log (ev : Event) : M (list Event) unit :=
  modify (fun l => (l ++ [ev])%list).

(** [await query(sql, params)] *)
Definition query (sql : string) (params : list Json) : M (list Event) QueryResult :=
  fun l => ((l ++ [Query sql params])%list, respond w (calls l) (sql, params)).

(** [await bcrypt.hash(data, rounds)] *)
Definition hash (data : string) (rounds : Z) : M (list Event) string :=
  log (Hash data rounds) ;; await (bcrypt_hash w data rounds).

(** [result.rows[0].id] *)
Definition first_id (result : QueryResult) : M (list Event) Json :=
  match rows result with
  | [] => throw (Tool.mkError "Cannot read properties of undefined (reading 'id')")
  | row :: _ => ret (prop row "id")
  end.

(** [for (const x of xs) { body }] over the array the body extends. *)
Fixpoint for_of {A S} (xs : list A) (body : S -> A -> M (list Event) S) (s : S)
    : M (list Event) S :=
  match xs with
  | [] => ret s
  | x :: rest => s' <- body s x ;; for_of rest body s'
  end.

Definition provisionUser (input : ProvisionInput) : M (list Event) Reply :=
  let email := p_email input in
  let displayName := p_displayName input in
  let password := p_password input in
  let quotaMB := default (p_quotaMB input) 5120%Z in
  let aliases := default (p_aliases input) [] in
  try (existingUser <- query select_user [JStr email] ;;
       (if Nat.ltb 0 (List.length (rows existingUser))
        then throw (Tool.mkError "User already exists")
        else ret tt) ;;
       passwordHash <- hash password 10 ;;
       userResult <- query insert_user
                       [JStr email; JStr displayName; JStr passwordHash; JNum quotaMB] ;;
       userId <- first_id userResult ;;
       createdAliases <-
         for_of aliases
           (fun createdAliases alias =>
              query insert_alias [userId; JStr alias] ;;
              ret (createdAliases ++ [alias])%list)
           [] ;;
       log (LogInfo ("Mailbox provisioned for " ++ email)
              (JObj [("userId", userId); ("aliases", strings createdAliases)])) ;;
       query insert_audit
         [userId; JStr "USER_CREATED";
          JObj [("email", JStr email); ("displayName", JStr displayName);
                ("quotaMB", JNum quotaMB); ("aliases", strings createdAliases)]] ;;
       ret (Created userId createdAliases))
  catch (fun error =>
       log (LogError "Failed to provision user:" error) ;;
       throw error).

Definition suspendUser (input : SuspendInput) : M (list Event) Reply :=
  let email := s_email input in
  let mode := s_mode input in
  try (userResult <- query select_user [JStr email] ;;
       (if Nat.eqb (List.length (rows userResult)) 0
        then throw (Tool.mkError "User not found")
        else ret tt) ;;
       userId <- first_id userResult ;;
       (if String.eqb mode "suspend"
        then query update_status [JStr "suspended"; userId] ;;
             log (LogInfo ("User suspended: " ++ email) JUndefined)
        else if String.eqb mode "delete"
        then query update_status [JStr "deleted"; userId] ;;
             log (LogInfo ("User deleted: " ++ email) JUndefined)
        else ret tt) ;;
       query insert_audit
         [userId;
          JStr (if String.eqb mode "suspend" then "USER_SUSPENDED" else "USER_DELETED");
          JObj [("email", JStr email); ("mode", JStr mode)]] ;;
       ret Ok)
  catch (fun error =>
       log (LogError ("Failed to " ++ mode ++ " user:") error) ;;
       throw error).

Definition setPassword (input : PasswordInput) : M (list Event) Reply :=
  let email := w_email input in
  let newPassword := w_newPassword input in
  let forceLogout := default (w_forceLogout input) true in
  try (userResult <- query select_user [JStr email] ;;
       (if Nat.eqb (List.length (rows userResult)) 0
        then throw (Tool.mkError "User not found")
        else ret tt) ;;
       userId <- first_id userResult ;;
       passwordHash <- hash newPassword 10 ;;
       query update_password [JStr passwordHash; userId] ;;
       query insert_audit
         [userId; JStr "PASSWORD_CHANGED";
          JObj [("email", JStr email); ("forceLogout", JBool forceLogout)]] ;;
       log (LogInfo ("Password updated for user: " ++ email) JUndefined) ;;
       ret Ok)
  catch (fun error =>
       log (LogError "Failed to set password:" error) ;;
       throw error).

Definition createAlias (input : AliasInput) : M (list Event) Reply :=
  let email := a_email input in
  let alias := a_alias input in
  try (userResult <- query select_user [JStr email] ;;
       (if Nat.eqb (List.length (rows userResult)) 0
        then throw (Tool.mkError "User not found")
        else ret tt) ;;
       userId <- first_id userResult ;;
       existingAlias <- query select_alias [JStr alias] ;;
       (if Nat.ltb 0 (List.length (rows existingAlias))
        then throw (Tool.mkError "Alias already exists")
        else ret tt) ;;
       query insert_alias [userId; JStr alias] ;;
       query insert_audit
         [userId; JStr "ALIAS_CREATED";
          JObj [("email", JStr email); ("alias", JStr alias)]] ;;
       log (LogInfo ("Alias created: " ++ alias ++ " -> " ++ email) JUndefined) ;;
       ret Ok)
  catch (fun error =>
       log (LogError "Failed to create alias:" error) ;;
       throw error).

Definition removeAlias (input : AliasInput) : M (list Event) Reply :=
  let email := a_email input in
  let alias := a_alias input in
  try (userResult <- query select_user [JStr email] ;;
       (if Nat.eqb (List.length (rows userResult)) 0
        then throw (Tool.mkError "User not found")
        else ret tt) ;;
       userId <- first_id userResult ;;
       result <- query delete_alias [userId; JStr alias] ;;
       (if Z.eqb (rowCount result) 0
        then throw (Tool.mkError "Alias not found")
        else ret tt) ;;
       query insert_audit
         [userId; JStr "ALIAS_REMOVED";
          JObj [("email", JStr email); ("alias", JStr alias)]] ;;
       log (LogInfo ("Alias removed: " ++ alias) JUndefined) ;;
       ret Ok)
  catch (fun error =>
       log (LogError "Failed to remove alias:" error) ;;
       throw error).

Definition setForwarding (input : ForwardingInput) : M (list Event) Reply :=
  let email := f_email input in
  let forwardTo := f_forwardTo input in
  let keepCopy := default (f_keepCopy input) true in
  try (userResult <- query select_user [JStr email] ;;
       (if Nat.eqb (List.length (rows userResult)) 0
        then throw (Tool.mkError "User not found")
        else ret tt) ;;
       userId <- first_id userResult ;;
       query delete_forwarding [userId] ;;
       query insert_forwarding [userId; strings forwardTo; JBool keepCopy] ;;
       query insert_audit
         [userId; JStr "FORWARDING_SET";
          JObj [("email", JStr email); ("forwardTo", strings forwardTo);
                ("keepCopy", JBool keepCopy)]] ;;
       log (LogInfo ("Forwarding set for " ++ email ++ ":")
              (JObj [("forwardTo", strings forwardTo); ("keepCopy", JBool keepCopy)])) ;;
       ret Ok)
  catch (fun error =>
       log (LogError "Failed to set forwarding:" error) ;;
       throw error).

Definition setQuota (input : QuotaInput) : M (list Event) Reply :=
  let email := q_email input in
  let quotaMB := q_quotaMB input in
  try (userResult <- query select_user [JStr email] ;;
       (if Nat.eqb (List.length (rows userResult)) 0
        then throw (Tool.mkError "User not found")
        else ret tt) ;;
       userId <- first_id userResult ;;
       query update_quota [JNum quotaMB; userId] ;;
       query insert_audit
         [userId; JStr "QUOTA_CHANGED";
          JObj [("email", JStr email); ("quotaMB", JNum quotaMB)]] ;;
       log (LogInfo ("Quota set for " ++ email ++ ": " ++ decimal quotaMB ++ "MB")
              JUndefined) ;;
       ret Ok)
  catch (fun error =>
       log (LogError "Failed to set quota:" error) ;;
       throw error).

End InWorld.

(** One call of a tool, from an empty log. *)
Definition run {A} (m : M (list Event) A) : list Event * (Tool.JsError + A) := m [].

Definition is_error (ev : Event) : bool :=
  match ev with
  | LogError _ _ => true
  | _ => false
  end.

Definition is_hash (ev : Event) : bool :=
  match ev with
  | Hash _ _ => true
  | _ => false
  end.

(** The statements of a log. *)
Definition statements (l : list Event) : list string := map fst (calls l).

(** A database with one user, [u-1], whatever the address asked for; every
    statement succeeds and touches one row. *)
Definition one_user : World :=
  mkWorld (fun _ call =>
             if String.eqb (fst call) select_alias then inr (mkQueryResult [] 0)
             else inr (mkQueryResult [[("id", JStr "u-1")]] 1))
          (fun data _ => inr ("$2b$10$" ++ data)).

(** An empty database: every [SELECT] gives no row; an [INSERT] into
    [users] gives the new id. *)
Definition empty_db : World :=
  mkWorld (fun _ call =>
             if String.eqb (fst call) insert_user
             then inr (mkQueryResult [[("id", JStr "u-2")]] 1)
             else inr (mkQueryResult [] 0))
          (fun data _ => inr ("$2b$10$" ++ data)).

(** The second alias cannot be inserted. *)
Definition second_alias_fails : World :=
  mkWorld (fun history call =>
             if String.eqb (fst call) insert_user
             then inr (mkQueryResult [[("id", JStr "u-2")]] 1)
             else if String.eqb (fst call) insert_alias && Nat.leb 3 (List.length history)
             then inl (Tool.mkError "duplicate key value violates unique constraint")
             else inr (mkQueryResult [] 0))
          (fun data _ => inr ("$2b$10$" ++ data)).

(** The address is known, the alias is not. *)
Definition no_such_alias : World :=
  mkWorld (fun _ call =>
             if String.eqb (fst call) select_user
             then inr (mkQueryResult [[("id", JStr "u-1")]] 1)
             else inr (mkQueryResult [] 0))
          (fun data _ => inr ("$2b$10$" ++ data)).

(** [m] only ever adds events that satisfy [P] to the log. *)
Definition appends (P : Event -> Prop) {A} (m : M (list Event) A) : Prop :=
  forall l, exists added, fst (m l) = (l ++ added)%list /\ Forall P added.

(** [m] can resolve with [a]. *)
Definition returns {A} (m : M (list Event) A) (a : A) : Prop :=
  exists l, snd (m l) = inr a.

(** A rejection is logged as an error, once and last, and a call that
    resolves logs no error. *)
Definition errors_logged {A} (served : list Event * (Tool.JsError + A)) : Prop :=
  match snd served with
  | inl e =>
      exists msg before,
        fst served = (before ++ [LogError msg e])%list /\ filter is_error before = []
  | inr _ => filter is_error (fst served) = []
  end.

Definition not_error (ev : Event) : Prop := is_error ev = false.

(** The events [provisionUser] may add to the log. *)
Definition provision_event (w : World) (input : ProvisionInput) (ev : Event) : Prop :=
  match ev with
  | Query sql params =>
      (sql = select_user /\ params = [JStr (p_email input)]) \/
      (sql = insert_user /\
       exists passwordHash,
         bcrypt_hash w (p_password input) 10 = inr passwordHash /\
         params = [JStr (p_email input); JStr (p_displayName input); JStr passwordHash;
                   JNum (default (p_quotaMB input) 5120%Z)]) \/
      (sql = insert_alias /\
       exists userId alias,
         In alias (default (p_aliases input) []) /\ params = [userId; JStr alias]) \/
      (sql = insert_audit /\
       exists userId created,
         params = [userId; JStr "USER_CREATED";
                   JObj [("email", JStr (p_email input));
                         ("displayName", JStr (p_displayName input));
                         ("quotaMB", JNum (default (p_quotaMB input) 5120%Z));
                         ("aliases", strings created)]])
  | Hash data rounds => data = p_password input /\ rounds = 10%Z
  | LogInfo _ _ => True
  | LogError msg _ => msg = "Failed to provision user:"
  end.

(** The events [suspendUser] may add to the log. *)
Definition suspend_event (input : SuspendInput) (ev : Event) : Prop :=
  match ev with
  | Query sql params =>
      (sql = select_user /\ params = [JStr (s_email input)]) \/
      (sql = update_status /\
       exists userId,
         (s_mode input = "suspend" /\ params = [JStr "suspended"; userId]) \/
         (s_mode input = "delete" /\ params = [JStr "deleted"; userId])) \/
      (sql = insert_audit /\
       exists userId,
         params = [userId;
                   JStr (if String.eqb (s_mode input) "suspend"
                         then "USER_SUSPENDED" else "USER_DELETED");
                   JObj [("email", JStr (s_email input));
                         ("mode", JStr (s_mode input))]])
  | Hash _ _ => False
  | LogInfo _ _ => True
  | LogError msg _ => msg = ("Failed to " ++ s_mode input ++ " user:")%string
  end.

End Users.

(** ** Strings *)

Lemma prefix_app (p s : string) :
  String.prefix p s = true <-> exists post, s = (p ++ post)%string.
Proof.
  revert s; induction p as [|c p IH]; intros s; simpl.
  - split; [intros _; now exists s | intros _; now destruct s].
  - destruct s as [|c' s].
    + split; [discriminate | intros [post H]; discriminate].
    + simpl. destruct (Ascii.ascii_dec c c') as [->|Hne].
      * rewrite IH. split; intros [post H]; exists post.
        -- now rewrite H.
        -- now injection H.
      * split; [discriminate | intros [post H]; injection H; intros; congruence].
Qed.

Lemma includes_unfold (s sub : string) :
  Js.includes s sub =
  if String.prefix sub s then true
  else match s with
       | EmptyString => false
       | String _ rest => Js.includes rest sub
       end.
Proof. destruct s; reflexivity. Qed.

Lemma includes_app (s sub : string) :
  Js.includes s sub = true <-> exists pre post, s = (pre ++ sub ++ post)%string.
Proof.
  induction s as [|c s IH]; rewrite includes_unfold;
    destruct (String.prefix sub _) eqn:Hp.
  - apply prefix_app in Hp as [post Hp].
    split; [intros _; exists "", post; exact Hp | reflexivity].
  - split; [discriminate|].
    intros [pre [post H]]. destruct pre; [|discriminate].
    simpl in H. assert (String.prefix sub "" = true) by (apply prefix_app; now exists post).
    congruence.
  - apply prefix_app in Hp as [post Hp].
    split; [intros _; exists "", post; exact Hp | reflexivity].
  - rewrite IH. split.
    + intros [pre [post H]]. exists (String c pre), post. simpl. now rewrite H.
    + intros [pre [post H]]. destruct pre as [|c' pre].
      * simpl in H. assert (String.prefix sub (String c s) = true)
          by (apply prefix_app; now exists post). congruence.
      * simpl in H. injection H as _ H. now exists pre, post.
Qed.

Lemma startsWith_nonempty (s p : string) :
  Js.startsWith s p = true -> p <> EmptyString -> Js.truthy (Some s) = true.
Proof.
  unfold Js.startsWith. intros H Hp. apply prefix_app in H as [post ->].
  destruct p; [congruence | reflexivity].
Qed.

(** ** The blocks of [dnsStatus], one by one *)

Section Blocks.

Import Tool Answers.

Variable dns : Resolver.
Variable d : string.

Lemma mx_copy (records : list MxRecord) :
  map (fun record => mkMx (exchange record) (priority record)) records = records.
Proof.
  induction records as [|[e p] rest IH]; simpl; [reflexivity | now rewrite IH].
Qed.

Lemma check_mx_run (r : Results) (tr : list Event) :
  mx r = [] ->
  check_mx dns d r tr = ((tr ++ mx_events dns d)%list, inr (set_mx r (mx_records dns d))).
Proof.
  intros Hmx.
  unfold check_mx, try_catch, bind, dns_resolveMx, mx_events, mx_records,
    logger_warn, emit, ret.
  destruct (resolveMx dns d) as [e|records].
  - rewrite <- app_assoc. simpl. destruct r; simpl in *; subst; reflexivity.
  - now rewrite mx_copy.
Qed.

Lemma check_spf_run (r : Results) (tr : list Event) :
  spf r = None ->
  check_spf dns d r tr =
  ((tr ++ spf_events dns d)%list, inr (set_spf r (option_map Js.join (spf_entry dns d)))).
Proof.
  intros Hspf.
  unfold check_spf, try_catch, bind, dns_resolveTxt, spf_events, spf_entry, txt_records,
    logger_warn, emit, ret.
  destruct (resolveTxt dns d) as [e|records].
  - rewrite <- app_assoc. simpl. destruct r; simpl in *; subst; reflexivity.
  - destruct (find _ records); simpl; [reflexivity|].
    destruct r; simpl in *; subst; reflexivity.
Qed.

Lemma check_dkim_selector_run (r : Results) (selector : string) (tr : list Event) :
  check_dkim_selector dns d r selector tr =
  ((tr ++ [QueryTxt (selector ++ "._domainkey." ++ d)])%list, inr (dkim_step dns d r selector)).
Proof.
  unfold check_dkim_selector, try_catch, bind, dns_resolveTxt, dkim_step, dkim_entry,
    txt_records, ret.
  destruct (resolveTxt dns _) as [e|records]; [reflexivity|].
  destruct (find _ records); reflexivity.
Qed.

Lemma for_of_dkim_run (selectors : list string) (r : Results) (tr : list Event) :
  for_of selectors (check_dkim_selector dns d) r tr =
  ((tr ++ dkim_events d selectors)%list, inr (fold_left (dkim_step dns d) selectors r)).
Proof.
  revert r tr; induction selectors as [|s rest IH]; intros r tr; simpl.
  - unfold ret. now rewrite app_nil_r.
  - unfold bind. rewrite check_dkim_selector_run, IH, <- app_assoc. reflexivity.
Qed.

Lemma fold_dkim_step (selectors : list string) (r : Results) :
  fold_left (dkim_step dns d) selectors r =
  mkResults (domain r) (mx r) (spf r) (dkim r ++ dkim_entries dns d selectors)%list
            (dmarc r) (verdict r).
Proof.
  revert r; induction selectors as [|s rest IH]; intros r; simpl.
  - rewrite app_nil_r. now destruct r.
  - rewrite IH. unfold dkim_step.
    destruct (dkim_entry dns d s); simpl; [|reflexivity].
    now rewrite <- app_assoc.
Qed.

Lemma check_dkim_run (r : Results) (tr : list Event) :
  dkim r = [] ->
  check_dkim dns d r tr =
  ((tr ++ dkim_events d dkimSelectors)%list,
   inr (mkResults (domain r) (mx r) (spf r) (dkim_entries dns d dkimSelectors)
                  (dmarc r) (verdict r))).
Proof.
  intros Hd. unfold check_dkim. rewrite for_of_dkim_run, fold_dkim_step, Hd.
  reflexivity.
Qed.

Lemma check_dmarc_run (r : Results) (tr : list Event) :
  dmarc r = None ->
  check_dmarc dns d r tr =
  ((tr ++ dmarc_events dns d)%list,
   inr (set_dmarc r (option_map Js.join (dmarc_entry dns d)))).
Proof.
  intros Hd.
  unfold check_dmarc, try_catch, bind, dns_resolveTxt, dmarc_events, dmarc_entry,
    txt_records, logger_warn, emit, ret.
  destruct (resolveTxt dns _) as [e|records].
  - rewrite <- app_assoc. simpl. destruct r; simpl in *; subst; reflexivity.
  - destruct (find _ records); simpl; [reflexivity|].
    destruct r; simpl in *; subst; reflexivity.
Qed.

(** The whole invocation: it returns, with the report and the events the
    answers determine. *)
Lemma dnsStatus_run :
  run (dnsStatus dns (mkInput d)) = (trace dns d, inr (report dns d)).
Proof.
  unfold run, dnsStatus, try_catch, bind. cbn [input_domain].
  rewrite check_mx_run by reflexivity.
  rewrite check_spf_run by reflexivity.
  rewrite check_dkim_run by reflexivity.
  rewrite check_dmarc_run by reflexivity.
  unfold determine_verdict, bind, logger_info, emit, ret, trace.
  rewrite <- !app_assoc. reflexivity.
Qed.

End Blocks.

(** ** The report and the score as functions of the answers *)

Section Report.

Import Tool Answers.

Variable dns : Resolver.
Variable d : string.

Lemma outcome_dnsStatus : outcome (dnsStatus dns (mkInput d)) = inr (report dns d).
Proof. unfold outcome. now rewrite dnsStatus_run. Qed.

Lemma events_dnsStatus : events (dnsStatus dns (mkInput d)) = trace dns d.
Proof. unfold events. now rewrite dnsStatus_run. Qed.

Lemma logged_score_trace : logged_score (trace dns d) = Some (score dns d).
Proof.
  unfold trace, mx_events, spf_events, dmarc_events.
  destruct (resolveMx dns d), (resolveTxt dns d), (resolveTxt dns ("_dmarc." ++ d));
    reflexivity.
Qed.

Lemma logged_score_dnsStatus :
  logged_score (events (dnsStatus dns (mkInput d))) = Some (score dns d).
Proof. rewrite events_dnsStatus. apply logged_score_trace. Qed.

Lemma length_nonempty {A} (l : list A) : Nat.ltb 0 (List.length l) = nonempty l.
Proof. now destruct l. Qed.

Lemma truthy_spf : Js.truthy (option_map Js.join (spf_entry dns d)) = spf_present dns d.
Proof.
  unfold spf_present, spf_entry.
  destruct (find _ (txt_records dns d)) as [record|] eqn:Hf; [|reflexivity].
  apply find_some in Hf as [_ Hf]. simpl option_map.
  now rewrite (startsWith_nonempty _ _ Hf).
Qed.

Lemma truthy_dmarc : Js.truthy (option_map Js.join (dmarc_entry dns d)) = dmarc_present dns d.
Proof.
  unfold dmarc_present, dmarc_entry.
  destruct (find _ (txt_records dns _)) as [record|] eqn:Hf; [|reflexivity].
  apply find_some in Hf as [_ Hf]. simpl option_map.
  now rewrite (startsWith_nonempty _ _ Hf).
Qed.

Lemma nonempty_dkim_entries (selectors : list string) :
  nonempty (dkim_entries dns d selectors) = existsb (dkim_matched dns d) selectors.
Proof.
  induction selectors as [|s rest IH]; [reflexivity|].
  simpl. unfold dkim_matched at 1.
  destruct (dkim_entry dns d s); simpl; [reflexivity | exact IH].
Qed.

Lemma score_flags :
  score dns d =
  (25 * count_true [mx_present dns d; spf_present dns d; dkim_present dns d;
                    dmarc_present dns d])%Z.
Proof.
  unfold score, compute_score, report_checks. cbn [mx spf dkim dmarc].
  rewrite !length_nonempty, truthy_spf, truthy_dmarc, nonempty_dkim_entries.
  fold (mx_present dns d). fold (dkim_present dns d).
  destruct (mx_present dns d), (spf_present dns d), (dkim_present dns d),
    (dmarc_present dns d); reflexivity.
Qed.

Lemma score_values :
  In (score dns d) [0; 25; 50; 75; 100]%Z.
Proof.
  rewrite score_flags.
  destruct (mx_present dns d), (spf_present dns d), (dkim_present dns d),
    (dmarc_present dns d); vm_compute; tauto.
Qed.

(** What each flag says of the answers. *)
Lemma mx_present_iff :
  mx_present dns d = true <-> exists record rest, resolveMx dns d = inr (record :: rest).
Proof.
  unfold mx_present, mx_records.
  destruct (resolveMx dns d) as [e|[|record rest]]; simpl.
  - split; [discriminate | intros (r & rs & H); discriminate H].
  - split; [discriminate | intros (r & rs & H); discriminate H].
  - split; [intros _; now exists record, rest | reflexivity].
Qed.

Lemma starts_present_iff (tag name : string) :
  isSome (find (fun record => Js.startsWith (Js.join record) tag) (txt_records dns name))
  = true <->
  exists records entry rest,
    resolveTxt dns name = inr records /\ In entry records /\
    Js.join entry = (tag ++ rest)%string.
Proof.
  unfold txt_records. destruct (resolveTxt dns name) as [e|records].
  - split; [discriminate | intros (r & _ & _ & H & _); discriminate H].
  - destruct (find _ records) as [entry|] eqn:Hf; simpl.
    + apply find_some in Hf as [Hin Hp]. apply prefix_app in Hp as [rest Hp].
      split; [intros _; now exists records, entry, rest | reflexivity].
    + split; [discriminate|]. intros (r & entry & rest & Hr & Hin & Hj).
      injection Hr as <-. pose proof (find_none _ _ Hf entry Hin) as Hn. simpl in Hn.
      assert (Js.startsWith (Js.join entry) tag = true)
        by (apply prefix_app; now exists rest).
      congruence.
Qed.

Lemma spf_present_iff :
  spf_present dns d = true <->
  exists records entry rest,
    resolveTxt dns d = inr records /\ In entry records /\
    Js.join entry = ("v=spf1" ++ rest)%string.
Proof. apply starts_present_iff. Qed.

Lemma dmarc_present_iff :
  dmarc_present dns d = true <->
  exists records entry rest,
    resolveTxt dns ("_dmarc." ++ d) = inr records /\ In entry records /\
    Js.join entry = ("v=DMARC1" ++ rest)%string.
Proof. apply starts_present_iff. Qed.

Lemma dkim_present_iff :
  dkim_present dns d = true <->
  exists sel, In sel dkimSelectors /\ dkim_matched dns d sel = true.
Proof. unfold dkim_present. apply existsb_exists. Qed.

Lemma verdict_report : verdict (report dns d) = verdict_of_score (score dns d).
Proof. reflexivity. Qed.

Lemma queries_trace :
  queries (trace dns d) =
  [QueryMx d; QueryTxt d; QueryTxt ("s1._domainkey." ++ d);
   QueryTxt ("default._domainkey." ++ d); QueryTxt ("selector1._domainkey." ++ d);
   QueryTxt ("selector2._domainkey." ++ d); QueryTxt ("_dmarc." ++ d)].
Proof.
  unfold trace, mx_events, spf_events, dmarc_events.
  destruct (resolveMx dns d), (resolveTxt dns d), (resolveTxt dns ("_dmarc." ++ d));
    reflexivity.
Qed.

End Report.

(** ** The score *)

(** C1, as amended: in the service tool the score written to the log is 25
    times the number of true flags among MX present, SPF present, DKIM
    present and DMARC present. *)
Theorem dnsStatus_score_counts_mx_spf_dkim_dmarc :
  forall (dns : Tool.Resolver) (d : string),
    Tool.logged_score (Tool.events (Tool.dnsStatus dns (Tool.mkInput d))) =
    Some (25 * Answers.count_true
                 [Answers.mx_present dns d; Answers.spf_present dns d;
                  Answers.dkim_present dns d; Answers.dmarc_present dns d])%Z.
Proof.
  intros dns d. rewrite logged_score_dnsStatus. f_equal. apply score_flags.
Qed.

(** C1 as worded fails: for a zone that publishes only a DMARC record the
    tool logs the score 25, whereas none of MX, A, SPF and DKIM is present
    and the four-factor rubric of the specification gives 0. *)
Lemma dnsStatus_score_not_four_factor :
  Tool.logged_score
    (Tool.events (Tool.dnsStatus Zones.only_dmarc (Tool.mkInput "example.com")))
  = Some 25%Z
  /\ Spec.four_factor_score Zones.only_dmarc "example.com" "mail.example.com" = 0%Z.
Proof. split; vm_compute; reflexivity. Qed.

(** ** The verdict *)

Lemma SCORE_range (cfg : Script.Config) (dig : Script.Dig) :
  (0 <= Script.SCORE cfg dig <= 5)%Z.
Proof.
  unfold Script.SCORE.
  destruct (Script.sh_n (Script.MX_RESULT cfg dig)), (Script.sh_n (Script.A_RESULT cfg dig)),
    (Script.sh_n (Script.SPF_RESULT cfg dig)), (Script.DKIM_FOUND cfg dig),
    (Script.sh_n (Script.DMARC_RESULT cfg dig)); simpl; lia.
Qed.

(** C2: the verdict is pass iff the score is the whole of its scale, warn
    iff it is at least 75 of 100 in the service tool (at least 60 percent,
    3 of 5, in the script) and below the maximum, and fail otherwise. *)
Theorem verdict_thresholds :
  (forall (dns : Tool.Resolver) (d : string),
      exists rep s,
        Tool.outcome (Tool.dnsStatus dns (Tool.mkInput d)) = inr rep /\
        Tool.logged_score (Tool.events (Tool.dnsStatus dns (Tool.mkInput d))) = Some s /\
        (Tool.verdict rep = Tool.pass <-> s = 100%Z) /\
        (Tool.verdict rep = Tool.warn <-> (75 <= s < 100)%Z) /\
        (Tool.verdict rep = Tool.fail <-> s <> 100%Z /\ ~ (75 <= s < 100)%Z)) /\
  (forall (cfg : Script.Config) (dig : Script.Dig),
      let s := Script.SCORE cfg dig in
      let v := Script.summary_verdict (Script.summary cfg dig) in
      (v = Tool.pass <-> s = Script.TOTAL) /\
      (v = Tool.warn <-> (60 * Script.TOTAL <= 100 * s)%Z /\ (s < Script.TOTAL)%Z) /\
      (v = Tool.fail <-> s <> Script.TOTAL /\
                         ~ ((60 * Script.TOTAL <= 100 * s)%Z /\ (s < Script.TOTAL)%Z))).
Proof.
  split.
  - intros dns d. exists (Answers.report dns d), (Answers.score dns d).
    rewrite outcome_dnsStatus, logged_score_dnsStatus, verdict_report.
    split; [reflexivity|]. split; [reflexivity|].
    pose proof (score_values dns d) as Hs. unfold Tool.verdict_of_score.
    simpl in Hs.
    destruct Hs as [H|[H|[H|[H|[H|[]]]]]]; rewrite <- H; simpl;
      repeat split; intros; try discriminate; try lia; try reflexivity.
  - intros cfg dig s v. subst s v. unfold Script.summary, Script.TOTAL.
    pose proof (SCORE_range cfg dig) as Hr.
    set (z := Script.SCORE cfg dig) in *. clearbody z.
    destruct (Z.eqb_spec z 5) as [He|He];
      [|destruct (Z.leb_spec 3 z) as [Hl|Hl]];
      cbn [Script.summary_verdict];
      (split; [|split]); split; intros H;
      try discriminate H; try reflexivity; try lia.
Qed.

(** C9: whatever the input and the resolver, [dnsStatus] returns a report
    whose verdict is pass, warn or fail, never the initial [unknown], and
    the score it computed is one of 0, 25, 50, 75 and 100. *)
Theorem dnsStatus_verdict_and_score_values :
  forall (dns : Tool.Resolver) (input : Tool.Input),
    exists rep s,
      Tool.outcome (Tool.dnsStatus dns input) = inr rep /\
      Tool.logged_score (Tool.events (Tool.dnsStatus dns input)) = Some s /\
      In (Tool.verdict rep) [Tool.pass; Tool.warn; Tool.fail] /\
      Tool.verdict rep <> Tool.unknown /\
      In s [0; 25; 50; 75; 100]%Z.
Proof.
  intros dns [d]. exists (Answers.report dns d), (Answers.score dns d).
  rewrite outcome_dnsStatus, logged_score_dnsStatus, verdict_report.
  split; [reflexivity|]. split; [reflexivity|].
  split; [|split; [|apply score_values]];
    unfold Tool.verdict_of_score;
    destruct (100 <=? _)%Z; [simpl; tauto | | discriminate |];
    destruct (75 <=? _)%Z; simpl; try tauto; discriminate.
Qed.

(** ** Resolver failures and malformed input *)

(** C3: when every lookup is rejected or gives no record, [dnsStatus]
    still returns a report; in it no record is present, the score is 0 and
    the verdict is fail. *)
Theorem dnsStatus_no_records :
  forall (dns : Tool.Resolver) (d : string),
    (forall name, Answers.absent (Tool.resolveMx dns name)) ->
    (forall name, Answers.absent (Tool.resolveTxt dns name)) ->
    exists rep,
      Tool.outcome (Tool.dnsStatus dns (Tool.mkInput d)) = inr rep /\
      Tool.mx rep = [] /\ Tool.spf rep = None /\ Tool.dkim rep = [] /\
      Tool.dmarc rep = None /\
      Tool.logged_score (Tool.events (Tool.dnsStatus dns (Tool.mkInput d))) = Some 0%Z /\
      Tool.verdict rep = Tool.fail.
Proof.
  intros dns d Hmx Htxt. exists (Answers.report dns d).
  rewrite outcome_dnsStatus, logged_score_dnsStatus.
  assert (Em : Answers.mx_records dns d = []).
  { unfold Answers.mx_records. specialize (Hmx d).
    destruct (Tool.resolveMx dns d); [reflexivity | exact Hmx]. }
  assert (Et : forall name, Answers.txt_records dns name = []).
  { intros name. unfold Answers.txt_records. specialize (Htxt name).
    destruct (Tool.resolveTxt dns name); [reflexivity | exact Htxt]. }
  assert (Er : Answers.report_checks dns d =
               Tool.mkResults d [] None [] None Tool.unknown).
  { unfold Answers.report_checks, Answers.spf_entry, Answers.dmarc_entry,
      Answers.dkim_entries, Answers.dkim_entry, Tool.dkimSelectors.
    simpl flat_map. now rewrite Em, !Et. }
  unfold Answers.report, Answers.score. rewrite Er.
  repeat split; reflexivity.
Qed.

(** A zone whose MX lookup succeeds with no record and whose TXT lookups
    are all rejected. *)
Lemma dnsStatus_no_records_witness :
  exists rep,
    Tool.outcome (Tool.dnsStatus Zones.empty_answers (Tool.mkInput "example.com")) = inr rep /\
    Tool.mx rep = [] /\ Tool.spf rep = None /\ Tool.dkim rep = [] /\
    Tool.dmarc rep = None /\
    Tool.logged_score
      (Tool.events (Tool.dnsStatus Zones.empty_answers (Tool.mkInput "example.com")))
    = Some 0%Z /\
    Tool.verdict rep = Tool.fail.
Proof.
  apply (dnsStatus_no_records Zones.empty_answers "example.com").
  - intros name. cbn -[String.eqb].
    destruct (String.eqb "example.com" name); [reflexivity | exact I].
  - intros name. simpl. exact I.
Defined.

(** C4, as amended: [dnsStatus] does not examine its input; for the empty
    domain string it issues the same seven lookups as for any other (MX
    and TXT for the empty name, TXT for each selector's name and for
    [_dmarc.]) and returns a report. *)
Theorem dnsStatus_empty_domain_is_looked_up :
  forall (dns : Tool.Resolver),
    Tool.queries (Tool.events (Tool.dnsStatus dns (Tool.mkInput ""))) =
    [Tool.QueryMx ""; Tool.QueryTxt ""; Tool.QueryTxt "s1._domainkey.";
     Tool.QueryTxt "default._domainkey."; Tool.QueryTxt "selector1._domainkey.";
     Tool.QueryTxt "selector2._domainkey."; Tool.QueryTxt "_dmarc."] /\
    exists rep,
      Tool.outcome (Tool.dnsStatus dns (Tool.mkInput "")) = inr rep /\
      Tool.domain rep = "".
Proof.
  intros dns. rewrite events_dnsStatus, queries_trace, outcome_dnsStatus.
  split; [reflexivity|]. now exists (Answers.report dns "").
Qed.

(** C4 as worded fails: on the empty domain string [dnsStatus] is not
    rejected before any lookup; it calls the resolver and returns. *)
Lemma dnsStatus_empty_domain_not_rejected :
  ~ rejected_before_lookup (Tool.dnsStatus Zones.no_records (Tool.mkInput "")).
Proof.
  intros [[e He] Hq]. vm_compute in Hq. discriminate Hq.
Qed.

(** ** DKIM selectors *)

Section Dkim.

Import Tool Answers.

Variable dns : Resolver.
Variable d : string.

Lemma selectors_of_dkim_entries (selectors : list string) :
  map selector (dkim_entries dns d selectors) = filter (dkim_matched dns d) selectors.
Proof.
  induction selectors as [|s rest IH]; [reflexivity|].
  simpl. unfold dkim_matched at 1.
  destruct (dkim_entry dns d s); simpl; now rewrite IH.
Qed.

Lemma dkim_matched_iff (sel : string) :
  dkim_matched dns d sel = true <->
  exists records entry pre post,
    resolveTxt dns (sel ++ "._domainkey." ++ d) = inr records /\
    In entry records /\
    Js.join entry = (pre ++ "v=DKIM1" ++ post)%string.
Proof.
  unfold dkim_matched, dkim_entry, txt_records.
  destruct (resolveTxt dns (sel ++ "._domainkey." ++ d)) as [e|records].
  - split; [discriminate|]. intros (records & _ & _ & _ & H & _). discriminate H.
  - destruct (find _ records) as [entry|] eqn:Hf; simpl.
    + apply find_some in Hf as [Hin Hf]. apply includes_app in Hf as (pre & post & Hf).
      split; [intros _ | reflexivity]. now exists records, entry, pre, post.
    + split; [discriminate|].
      intros (records' & entry & pre & post & Hr & Hin & Hj).
      injection Hr as <-.
      pose proof (find_none _ _ Hf entry Hin) as Hn. simpl in Hn.
      assert (Js.includes (Js.join entry) "v=DKIM1" = true)
        by (apply includes_app; now exists pre, post).
      congruence.
Qed.

Lemma txt_of_dkim_entries (selectors : list string) :
  Forall (fun e => Js.includes (txt e) "v=DKIM1" = true) (dkim_entries dns d selectors).
Proof.
  induction selectors as [|s rest IH]; simpl; [constructor|].
  unfold dkim_entry at 1.
  destruct (find _ _) as [entry|] eqn:Hf; simpl; [|exact IH].
  apply find_some in Hf as [_ Hf]. now constructor.
Qed.

End Dkim.

Lemma Subseq_filter {A} (f : A -> bool) (l : list A) : Subseq (filter f l) l.
Proof.
  induction l as [|x l IH]; simpl; [constructor|].
  destruct (f x); now constructor.
Qed.

Lemma NoDup_dkimSelectors : NoDup Tool.dkimSelectors.
Proof.
  unfold Tool.dkimSelectors.
  repeat (constructor; [simpl; intuition discriminate|]). constructor.
Qed.

(** C5: the selectors of the [dkim] entries are exactly the candidates of
    the service tool's list, in its order, whose TXT lookup at
    [{selector}._domainkey.{domain}] succeeds with an entry whose value
    contains [v=DKIM1]; and DKIM counts as present iff some candidate
    matched. *)
Theorem dkim_enumeration_exhaustive :
  forall (dns : Tool.Resolver) (d : string),
    exists rep,
      Tool.outcome (Tool.dnsStatus dns (Tool.mkInput d)) = inr rep /\
      map Tool.selector (Tool.dkim rep) =
        filter (Answers.dkim_matched dns d) ["s1"; "default"; "selector1"; "selector2"] /\
      (forall sel,
          In sel (map Tool.selector (Tool.dkim rep)) <->
          In sel ["s1"; "default"; "selector1"; "selector2"] /\
          exists records entry pre post,
            Tool.resolveTxt dns (sel ++ "._domainkey." ++ d) = inr records /\
            In entry records /\
            Js.join entry = (pre ++ "v=DKIM1" ++ post)%string) /\
      (Nat.ltb 0 (List.length (Tool.dkim rep)) = true <->
       exists sel, In sel ["s1"; "default"; "selector1"; "selector2"] /\
                   Answers.dkim_matched dns d sel = true).
Proof.
  intros dns d. exists (Answers.report dns d). rewrite outcome_dnsStatus.
  split; [reflexivity|].
  change (Tool.dkim (Answers.report dns d))
    with (Answers.dkim_entries dns d Tool.dkimSelectors).
  fold Tool.dkimSelectors.
  split; [apply selectors_of_dkim_entries|]. split.
  - intros sel. rewrite selectors_of_dkim_entries, filter_In, dkim_matched_iff.
    reflexivity.
  - rewrite length_nonempty, nonempty_dkim_entries, existsb_exists. reflexivity.
Qed.

(** Keys at two of the four candidates: both are reported, in the order of
    the list, and the other two are not. *)
Example dkim_two_of_four :
  exists rep,
    Tool.outcome (Tool.dnsStatus Zones.two_selectors (Tool.mkInput "example.com")) = inr rep /\
    Tool.dkim rep = [Tool.mkDkim "default" "k=rsa; v=DKIM1; p=AAAB";
                     Tool.mkDkim "selector2" "v=DKIM1; p=AAAC"].
Proof. eexists. split; vm_compute; reflexivity. Qed.

(** C10: in the report of [dnsStatus] the selectors of the [dkim] entries
    are taken from the candidate list in its order, none twice; each
    entry's [txt] contains [v=DKIM1]; so there are at most 4 entries. *)
Theorem dkim_entries_shape :
  forall (dns : Tool.Resolver) (input : Tool.Input),
    exists rep,
      Tool.outcome (Tool.dnsStatus dns input) = inr rep /\
      Subseq (map Tool.selector (Tool.dkim rep))
             ["s1"; "default"; "selector1"; "selector2"] /\
      NoDup (map Tool.selector (Tool.dkim rep)) /\
      Forall (fun e => exists pre post, Tool.txt e = (pre ++ "v=DKIM1" ++ post)%string)
             (Tool.dkim rep) /\
      (List.length (Tool.dkim rep) <= 4)%nat.
Proof.
  intros dns [d]. exists (Answers.report dns d). rewrite outcome_dnsStatus.
  split; [reflexivity|].
  change (Tool.dkim (Answers.report dns d))
    with (Answers.dkim_entries dns d Tool.dkimSelectors).
  fold Tool.dkimSelectors.
  rewrite selectors_of_dkim_entries.
  split; [apply Subseq_filter|].
  split; [apply NoDup_filter, NoDup_dkimSelectors|].
  split.
  - eapply Forall_impl; [|apply txt_of_dkim_entries].
    intros e He. now apply includes_app.
  - rewrite <- (length_map Tool.selector), selectors_of_dkim_entries.
    apply (filter_length_le (Answers.dkim_matched dns d) Tool.dkimSelectors).
Qed.

(** ** Resolvers with the same answers *)

Section SameAnswers.

Import Tool Answers.

Variables dns1 dns2 : Resolver.
Hypothesis same_mx : forall name, resolveMx dns1 name = resolveMx dns2 name.
Hypothesis same_txt : forall name, resolveTxt dns1 name = resolveTxt dns2 name.

Lemma same_mx_records (name : string) : mx_records dns1 name = mx_records dns2 name.
Proof. unfold mx_records. now rewrite same_mx. Qed.

Lemma same_txt_records (name : string) : txt_records dns1 name = txt_records dns2 name.
Proof. unfold txt_records. now rewrite same_txt. Qed.

Lemma same_dkim_entries (d : string) (selectors : list string) :
  dkim_entries dns1 d selectors = dkim_entries dns2 d selectors.
Proof.
  induction selectors as [|s rest IH]; [reflexivity|].
  simpl. unfold dkim_entry. now rewrite same_txt_records, IH.
Qed.

Lemma same_report_checks (d : string) : report_checks dns1 d = report_checks dns2 d.
Proof.
  unfold report_checks, spf_entry, dmarc_entry.
  now rewrite same_mx_records, !same_txt_records, same_dkim_entries.
Qed.

Lemma same_report (d : string) : report dns1 d = report dns2 d.
Proof. unfold report, score. now rewrite same_report_checks. Qed.

Lemma same_trace (d : string) : trace dns1 d = trace dns2 d.
Proof.
  unfold trace, score, mx_events, spf_events, dmarc_events.
  now rewrite same_mx, !same_txt, same_report, same_report_checks.
Qed.

End SameAnswers.

(** Resolvers whose MX and TXT answers agree name by name give the same
    run, and the logged score is [compute_score] of the returned report. *)
Lemma dnsStatus_same_answers :
  forall (dns1 dns2 : Tool.Resolver) (input : Tool.Input),
    (forall name, Tool.resolveMx dns1 name = Tool.resolveMx dns2 name) ->
    (forall name, Tool.resolveTxt dns1 name = Tool.resolveTxt dns2 name) ->
    Tool.run (Tool.dnsStatus dns1 input) = Tool.run (Tool.dnsStatus dns2 input) /\
    exists rep,
      Tool.outcome (Tool.dnsStatus dns1 input) = inr rep /\
      Tool.logged_score (Tool.events (Tool.dnsStatus dns1 input)) =
        Some (Tool.compute_score rep).
Proof.
  intros dns1 dns2 [d] Hmx Htxt. split.
  - rewrite !dnsStatus_run. now rewrite (same_trace dns1 dns2), (same_report dns1 dns2).
  - exists (Answers.report dns1 d).
    rewrite outcome_dnsStatus, logged_score_dnsStatus. split; reflexivity.
Qed.

(** Two resolvers that differ only in the A records they would give. *)
Example dnsStatus_same_answers_example :
  Tool.run (Tool.dnsStatus Zones.example_com (Tool.mkInput "example.com")) =
  Tool.run (Tool.dnsStatus Zones.example_com' (Tool.mkInput "example.com")) /\
  exists rep,
    Tool.outcome (Tool.dnsStatus Zones.example_com (Tool.mkInput "example.com")) = inr rep /\
    Tool.logged_score
      (Tool.events (Tool.dnsStatus Zones.example_com (Tool.mkInput "example.com"))) =
      Some (Tool.compute_score rep).
Proof.
  apply (dnsStatus_same_answers Zones.example_com Zones.example_com'
           (Tool.mkInput "example.com")); intros name; reflexivity.
Defined.

(** ** [grep] on the lines of [dig] *)

Lemma matches_here_bre (word s : string) :
  Script.matches_here (Script.bre word) s = true <->
  exists mid post, s = (mid ++ post)%string /\ dot_eqb word mid = true.
Proof.
  revert s; induction word as [|a word IH]; intros s; simpl.
  - split; [intros _; now exists "", s|reflexivity].
  - destruct s as [|c s].
    + split; [discriminate|]. intros (mid & post & H & Hm).
      destruct mid; [discriminate Hm | discriminate H].
    + rewrite andb_true_iff, IH. split.
      * intros [Ha (mid & post & -> & Hm)]. exists (String c mid), post.
        split; [reflexivity|]. simpl. rewrite Hm, andb_true_r.
        destruct (Ascii.eqb a "."); [reflexivity | exact Ha].
      * intros (mid & post & H & Hm). destruct mid as [|c' mid]; [discriminate Hm|].
        simpl in H, Hm. injection H as <- ->. apply andb_true_iff in Hm as [Ha Hm].
        split; [|now exists mid, post].
        destruct (Ascii.eqb a "."); [reflexivity | exact Ha].
Qed.

Lemma matches_somewhere_unfold (b : Script.Branch) (s : string) :
  Script.matches_somewhere b s =
  if Script.matches_here b s then true
  else match s with
       | EmptyString => false
       | String _ s' => Script.matches_somewhere b s'
       end.
Proof. destruct s; reflexivity. Qed.

Lemma matches_somewhere_bre (word s : string) :
  Script.matches_somewhere (Script.bre word) s = true <->
  exists pre mid post, s = (pre ++ mid ++ post)%string /\ dot_eqb word mid = true.
Proof.
  induction s as [|c s IH]; rewrite matches_somewhere_unfold;
    destruct (Script.matches_here _ _) eqn:Hh.
  - apply matches_here_bre in Hh as (mid & post & Hs & Hm).
    split; [intros _; now exists "", mid, post | reflexivity].
  - split; [discriminate|]. intros (pre & mid & post & Hs & Hm).
    destruct pre; [|discriminate Hs]. simpl in Hs.
    assert (Script.matches_here (Script.bre word) "" = true)
      by (apply matches_here_bre; now exists mid, post).
    congruence.
  - apply matches_here_bre in Hh as (mid & post & Hs & Hm).
    split; [intros _; now exists "", mid, post | reflexivity].
  - rewrite IH. split.
    + intros (pre & mid & post & -> & Hm). now exists (String c pre), mid, post.
    + intros (pre & mid & post & Hs & Hm). destruct pre as [|c' pre].
      * simpl in Hs.
        assert (Script.matches_here (Script.bre word) (String c s) = true)
          by (apply matches_here_bre; now exists mid, post).
        congruence.
      * simpl in Hs. injection Hs as _ ->. now exists pre, mid, post.
Qed.

Lemma dot_eqb_refl (word : string) : dot_eqb word word = true.
Proof.
  induction word as [|a word IH]; simpl; [reflexivity|].
  now rewrite Ascii.eqb_refl, orb_true_r.
Qed.

Lemma dot_eqb_nodot (word mid : string) :
  nodot word = true -> (dot_eqb word mid = true <-> mid = word).
Proof.
  revert mid; induction word as [|a word IH]; intros mid Hn.
  - destruct mid; simpl; split; congruence.
  - simpl in Hn. apply andb_true_iff in Hn as [Ha Hn].
    destruct mid as [|c mid]; simpl; [split; discriminate|].
    apply negb_true_iff in Ha. rewrite Ha, andb_true_iff, (IH mid Hn). simpl.
    rewrite Ascii.eqb_eq. split; [intros [-> ->]; reflexivity | intros H; now injection H].
Qed.

(** A tag without a dot occurs literally in the lines [grep] keeps. *)
Lemma grep_tag (tag : string) (out : list string) (line : string) :
  nodot tag = true ->
  In line (Script.grep [Script.bre tag] out) <->
  In line out /\ exists pre post, line = (pre ++ tag ++ post)%string.
Proof.
  intros Hn. unfold Script.grep, Script.line_matches. rewrite filter_In.
  simpl existsb. rewrite orb_false_r, matches_somewhere_bre.
  split; intros [Hin H]; (split; [exact Hin|]).
  - destruct H as (pre & mid & post & Hs & Hm).
    apply (dot_eqb_nodot _ _ Hn) in Hm as ->. now exists pre, post.
  - destruct H as (pre & post & Hs). exists pre, tag, post.
    split; [exact Hs | apply dot_eqb_refl].
Qed.

Lemma sh_n_exists (out : list string) :
  Script.sh_n out = true <-> exists line, In line out /\ line <> EmptyString.
Proof.
  unfold Script.sh_n. rewrite existsb_exists.
  split; intros (line & Hin & H); exists line; (split; [exact Hin|]).
  - apply negb_true_iff in H. now apply String.eqb_neq in H.
  - apply negb_true_iff. now apply String.eqb_neq.
Qed.

Lemma app_tag_nonempty (pre tag post : string) :
  tag <> EmptyString -> (pre ++ tag ++ post)%string <> EmptyString.
Proof.
  intros Ht H. destruct pre; [|discriminate H]. destruct tag; [congruence | discriminate H].
Qed.

Lemma sh_n_grep_tag (tag : string) (out : list string) :
  nodot tag = true -> tag <> EmptyString ->
  Script.sh_n (Script.grep [Script.bre tag] out) = true <->
  exists line pre post, In line out /\ line = (pre ++ tag ++ post)%string.
Proof.
  intros Hn Ht. rewrite sh_n_exists. split.
  - intros (line & Hin & _). apply (grep_tag _ _ _ Hn) in Hin as [Hin (pre & post & Hs)].
    now exists line, pre, post.
  - intros (line & pre & post & Hin & Hs). exists line. split.
    + apply (grep_tag _ _ _ Hn). split; [exact Hin | now exists pre, post].
    + rewrite Hs. now apply app_tag_nonempty.
Qed.

Lemma grep_q_word (word : string) (out : list string) :
  Script.grep_q [Script.bre word] out = true <->
  exists line pre mid post,
    In line out /\ line = (pre ++ mid ++ post)%string /\ dot_eqb word mid = true.
Proof.
  unfold Script.grep_q, Script.line_matches. rewrite existsb_exists. split.
  - intros (line & Hin & H). simpl in H. rewrite orb_false_r in H.
    apply matches_somewhere_bre in H as (pre & mid & post & Hs & Hm).
    now exists line, pre, mid, post.
  - intros (line & pre & mid & post & Hin & Hs & Hm). exists line.
    split; [exact Hin|]. simpl. rewrite orb_false_r.
    apply matches_somewhere_bre. now exists pre, mid, post.
Qed.

Lemma find_first {A} (f : A -> bool) (l : list A) (x : A) :
  find f l = Some x <->
  exists before after,
    l = (before ++ x :: after)%list /\
    Forall (fun y => f y = false) before /\ f x = true.
Proof.
  induction l as [|y l IH]; simpl.
  - split; [discriminate|]. intros (before & after & H & _). now destruct before.
  - destruct (f y) eqn:Hy.
    + split.
      * intros H. injection H as ->. exists [], l. repeat split; [constructor | exact Hy].
      * intros (before & after & H & Hb & Hx). destruct before as [|z before].
        -- simpl in H. now injection H as ->.
        -- simpl in H. injection H as -> _. inversion Hb; congruence.
    + rewrite IH. split.
      * intros (before & after & -> & Hb & Hx). exists (y :: before), after.
        repeat split; [now constructor | exact Hx].
      * intros (before & after & H & Hb & Hx). destruct before as [|z before].
        -- simpl in H. injection H as -> _. congruence.
        -- simpl in H. injection H as -> ->. inversion Hb. now exists before, after.
Qed.

(** ** The SPF check *)




(** The two values of the specification: [v=spf1 mx -all] is judged
    plausible and [v=spf1 foo] is not; SPF is present for both, in the
    script and in the service tool. *)
Example spf_present_either_way :
  Script.spf_appears_valid Script.mailhero Zones.spf_mx_all = Some true /\
  Script.sh_n (Script.SPF_RESULT Script.mailhero Zones.spf_mx_all) = true /\
  Script.spf_appears_valid Script.mailhero Zones.spf_foo_script = Some false /\
  Script.sh_n (Script.SPF_RESULT Script.mailhero Zones.spf_foo_script) = true /\
  Answers.spf_present Zones.example_com "example.com" = true /\
  Answers.spf_present Zones.spf_foo "example.com" = true.
Proof. repeat split; vm_compute; reflexivity. Qed.

(** ** The MX check of the script *)

Lemma mx_server_found_iff (cfg : Script.Config) (dig : Script.Dig) :
  Script.mx_server_found cfg dig = Some true <->
  Script.sh_n (Script.MX_RESULT cfg dig) = true /\
  exists line pre mid post,
    In line (Script.MX_RESULT cfg dig) /\
    line = (pre ++ mid ++ post)%string /\
    dot_eqb (Script.MAIL_SERVER cfg) mid = true.
Proof.
  unfold Script.mx_server_found. rewrite <- grep_q_word.
  destruct (Script.sh_n _).
  - split; [intros H; injection H as ->; now split | intros [_ ->]; reflexivity].
  - split; [discriminate | intros [H _]; discriminate H].
Qed.

(** C8, as amended: in the script the mail server is reported as found in
    the MX records iff there is MX output and some line of it contains,
    at any position and with the case of the letters as it is, a piece
    that agrees with [MAIL_SERVER] character by character, a dot of
    [MAIL_SERVER] agreeing with any character. *)
Theorem mx_server_found_by_grep :
  forall (cfg : Script.Config) (dig : Script.Dig),
    Script.mx_server_found cfg dig = Some true <->
    Script.sh_n (Script.MX_RESULT cfg dig) = true /\
    exists line pre mid post,
      In line (Script.MX_RESULT cfg dig) /\
      line = (pre ++ mid ++ post)%string /\
      dot_eqb (Script.MAIL_SERVER cfg) mid = true.
Proof. exact mx_server_found_iff. Qed.

(** C8 as worded fails: an exchange published in upper case equals the
    mail server's name case-insensitively and up to the trailing dot, yet
    the script reports that the mail server is not in the MX records. *)
Lemma mx_match_is_case_sensitive :
  Script.mx_server_found Script.mailhero Zones.upper_case_mx = Some false /\
  Spec.mx_matchesExpectation (Script.MAIL_SERVER Script.mailhero)
    (Script.MX_RESULT Script.mailhero Zones.upper_case_mx) = true.
Proof. split; vm_compute; reflexivity. Qed.

(** The other way round: an exchange that is another host, with a longer
    name, is reported as the mail server. *)
Example mx_match_is_substring :
  Script.mx_server_found Script.mailhero Zones.longer_mx = Some true /\
  Spec.mx_matchesExpectation (Script.MAIL_SERVER Script.mailhero)
    (Script.MX_RESULT Script.mailhero Zones.longer_mx) = false.
Proof. split; vm_compute; reflexivity. Qed.

(** An exchange that is the mail server, printed with its trailing dot. *)
Example mx_match_plain :
  Script.mx_server_found Script.mailhero Zones.plain_mx = Some true /\
  Spec.mx_matchesExpectation (Script.MAIL_SERVER Script.mailhero)
    (Script.MX_RESULT Script.mailhero Zones.plain_mx) = true.
Proof. split; vm_compute; reflexivity. Qed.

(** When the exchange contains the mail server's name as it is written,
    the script finds it. *)
Lemma mx_server_found_literal (cfg : Script.Config) (dig : Script.Dig)
    (line pre post : string) :
  In line (Script.MX_RESULT cfg dig) ->
  Script.MAIL_SERVER cfg <> EmptyString ->
  line = (pre ++ Script.MAIL_SERVER cfg ++ post)%string ->
  Script.mx_server_found cfg dig = Some true.
Proof.
  intros Hin Hne Hl. apply mx_server_found_iff. split.
  - apply sh_n_exists. exists line. split; [exact Hin|].
    rewrite Hl. now apply app_tag_nonempty.
  - exists line, pre, (Script.MAIL_SERVER cfg), post.
    repeat split; [exact Hin | exact Hl | apply dot_eqb_refl].
Qed.

(** The scenario of the specification with every record in place: the
    service tool scores 100 and passes, the script scores 5 of 5. *)
Example all_records_pass :
  Tool.run (Tool.dnsStatus Zones.example_com (Tool.mkInput "example.com")) =
  ([Tool.QueryMx "example.com"; Tool.QueryTxt "example.com";
    Tool.QueryTxt "s1._domainkey.example.com";
    Tool.QueryTxt "default._domainkey.example.com";
    Tool.QueryTxt "selector1._domainkey.example.com";
    Tool.QueryTxt "selector2._domainkey.example.com";
    Tool.QueryTxt "_dmarc.example.com";
    Tool.LogInfo "DNS status check for example.com:" 100 Tool.pass],
   inr (Tool.mkResults "example.com" [Tool.mkMx "mail.example.com" 10]
          (Some "v=spf1 mx -all") [Tool.mkDkim "s1" "v=DKIM1; k=rsa; p=AAAB"]
          (Some "v=DMARC1; p=quarantine;") Tool.pass)) /\
  Script.SCORE Script.mailhero Zones.all_five = 5%Z /\
  Script.summary Script.mailhero Zones.all_five = Script.Excellent.
Proof. repeat split; vm_compute; reflexivity. Qed.

(** * The rest of the script and of [dnsStatus] *)

(** ** [grep] with several alternatives *)

Lemma contains_includes (line tag : string) :
  Js.includes line tag = true <-> More.contains line tag.
Proof. apply includes_app. Qed.

Lemma matches_somewhere_tag (tag line : string) :
  nodot tag = true ->
  Script.matches_somewhere (Script.bre tag) line = true <-> More.contains line tag.
Proof.
  intros Hn. rewrite matches_somewhere_bre. split.
  - intros (pre & mid & post & Hs & Hm).
    apply (dot_eqb_nodot _ _ Hn) in Hm as ->. now exists pre, post.
  - intros (pre & post & Hs). exists pre, tag, post. split; [exact Hs | apply dot_eqb_refl].
Qed.

Lemma line_matches_tags (tags : list string) (line : string) :
  forallb nodot tags = true ->
  Script.line_matches (map Script.bre tags) line = true <->
  exists tag, In tag tags /\ More.contains line tag.
Proof.
  intros Hn. unfold Script.line_matches. rewrite existsb_exists. split.
  - intros (b & Hb & Hm). apply in_map_iff in Hb as (tag & <- & Hin).
    exists tag. split; [exact Hin|]. apply matches_somewhere_tag; [|exact Hm].
    rewrite forallb_forall in Hn. now apply Hn.
  - intros (tag & Hin & Hc). exists (Script.bre tag). split; [now apply in_map|].
    apply matches_somewhere_tag; [|exact Hc].
    rewrite forallb_forall in Hn. now apply Hn.
Qed.

Lemma grep_q_tags (tags : list string) (out : list string) :
  forallb nodot tags = true ->
  Script.grep_q (map Script.bre tags) out = true <->
  exists line tag, In line out /\ In tag tags /\ More.contains line tag.
Proof.
  intros Hn. unfold Script.grep_q. rewrite existsb_exists. split.
  - intros (line & Hin & Hm). apply (line_matches_tags _ _ Hn) in Hm as (tag & Ht & Hc).
    now exists line, tag.
  - intros (line & tag & Hin & Ht & Hc). exists line. split; [exact Hin|].
    apply (line_matches_tags _ _ Hn). now exists tag.
Qed.

Lemma sh_n_grep_contains (tag : string) (out : list string) :
  nodot tag = true -> tag <> EmptyString ->
  Script.sh_n (Script.grep [Script.bre tag] out) = true <->
  exists line, In line out /\ More.contains line tag.
Proof.
  intros Hn Ht. rewrite (sh_n_grep_tag _ _ Hn Ht). split.
  - intros (line & pre & post & Hin & Hs). exists line. split; [exact Hin | now exists pre, post].
  - intros (line & Hin & pre & post & Hs). now exists line, pre, post.
Qed.

Lemma fold_found {A} (P : A -> bool) (l : list A) (init : bool) :
  fold_left (fun found x => if P x then true else found) l init = init || existsb P l.
Proof.
  revert init; induction l as [|x l IH]; intros init; simpl.
  - now rewrite orb_false_r.
  - rewrite IH. destruct (P x), init; reflexivity.
Qed.

(** ** The DKIM, DMARC and SPF-syntax checks of the script *)

(** X1: the script finds DKIM iff, for one of its four selectors [s1],
    [default], [selector1], [mail], some line of the TXT output at
    [{selector}._domainkey.{DOMAIN}] contains [v=DKIM1]. *)
Theorem script_dkim_found_iff :
  forall (cfg : Script.Config) (dig : Script.Dig),
    Script.DKIM_FOUND cfg dig = true <->
    exists selector line,
      In selector ["s1"; "default"; "selector1"; "mail"] /\
      In line (Script.dig_short dig Script.TXT
                 (selector ++ "._domainkey." ++ Script.DOMAIN cfg)) /\
      More.contains line "v=DKIM1".
Proof.
  intros cfg dig. unfold Script.DKIM_FOUND. rewrite fold_found, orb_false_l.
  rewrite existsb_exists. fold Script.DKIM_SELECTORS. split.
  - intros (selector & Hin & Hn). unfold Script.DKIM_RESULT in Hn.
    apply sh_n_grep_contains in Hn as (line & Hl & Hc); [|reflexivity|discriminate].
    now exists selector, line.
  - intros (selector & line & Hin & Hl & Hc). exists selector. split; [exact Hin|].
    unfold Script.DKIM_RESULT.
    apply sh_n_grep_contains; [reflexivity|discriminate|]. now exists line.
Qed.

Lemma in_grep_contains (tag : string) (out : list string) (line : string) :
  nodot tag = true ->
  In line (Script.grep [Script.bre tag] out) <-> In line out /\ More.contains line tag.
Proof. intros Hn. apply grep_tag, Hn. Qed.

(** X2: the script finds a DMARC record iff some line of the TXT output
    at [_dmarc.{DOMAIN}] contains [v=DMARC1]; it judges the policy exactly
    then, and calls it enforced iff such a line also contains [p=reject]
    or [p=quarantine] at any position. *)
Theorem script_dmarc_policy :
  forall (cfg : Script.Config) (dig : Script.Dig),
    let txt := Script.dig_short dig Script.TXT ("_dmarc." ++ Script.DOMAIN cfg) in
    (Script.sh_n (Script.DMARC_RESULT cfg dig) = true <->
     exists line, In line txt /\ More.contains line "v=DMARC1") /\
    (Script.dmarc_enforced cfg dig = None <->
     Script.sh_n (Script.DMARC_RESULT cfg dig) = false) /\
    (Script.dmarc_enforced cfg dig = Some true <->
     exists line,
       In line txt /\ More.contains line "v=DMARC1" /\
       (More.contains line "p=reject" \/ More.contains line "p=quarantine")).
Proof.
  intros cfg dig txt.
  assert (Hp : Script.sh_n (Script.DMARC_RESULT cfg dig) = true <->
               exists line, In line txt /\ More.contains line "v=DMARC1").
  { unfold Script.DMARC_RESULT. now apply sh_n_grep_contains. }
  split; [exact Hp|]. unfold Script.dmarc_enforced.
  change [Script.bre "p=reject"; Script.bre "p=quarantine"]
    with (map Script.bre ["p=reject"; "p=quarantine"]).
  split.
  - destruct (Script.sh_n (Script.DMARC_RESULT cfg dig)); split; congruence.
  - split.
    + destruct (Script.sh_n (Script.DMARC_RESULT cfg dig)); [|discriminate].
      intros H. injection H as H.
      apply (grep_q_tags ["p=reject"; "p=quarantine"]) in H
        as (line & tag & Hin & Ht & Hc); [|reflexivity].
      unfold Script.DMARC_RESULT in Hin.
      apply in_grep_contains in Hin as [Hin Hd]; [|reflexivity].
      exists line. repeat split; [exact Hin | exact Hd |].
      destruct Ht as [<-|[<-|[]]]; [now left | now right].
    + intros (line & Hin & Hd & Hpol).
      assert (Hl : In line (Script.DMARC_RESULT cfg dig))
        by (unfold Script.DMARC_RESULT; apply in_grep_contains; [reflexivity | now split]).
      assert (Hn : Script.sh_n (Script.DMARC_RESULT cfg dig) = true)
        by (apply Hp; now exists line).
      rewrite Hn. f_equal. apply grep_q_tags; [reflexivity|].
      destruct Hpol as [Hc|Hc].
      * exists line, "p=reject". repeat split; [exact Hl | now left | exact Hc].
      * exists line, "p=quarantine". repeat split; [exact Hl | right; now left | exact Hc].
Qed.

(** A record with [p=none] and [sp=reject] is called enforced: the
    subdomain tag contains [p=reject]. *)
Example script_dmarc_subdomain_policy :
  Script.dmarc_enforced Script.mailhero More.dmarc_subdomain_only = Some true.
Proof. vm_compute. reflexivity. Qed.

(** X3: the script judges the SPF syntax exactly when it found an SPF
    line, and says it appears valid iff some line of the TXT output that
    contains [v=spf1] also contains one of [include:], [a:], [mx], [ip4:]
    and [ip6:]. *)
Theorem script_spf_appears_valid_iff :
  forall (cfg : Script.Config) (dig : Script.Dig),
    let txt := Script.dig_short dig Script.TXT (Script.DOMAIN cfg) in
    (Script.spf_appears_valid cfg dig = None <->
     Script.sh_n (Script.SPF_RESULT cfg dig) = false) /\
    (Script.spf_appears_valid cfg dig = Some true <->
     exists line mechanism,
       In line txt /\ More.contains line "v=spf1" /\
       In mechanism ["include:"; "a:"; "mx"; "ip4:"; "ip6:"] /\
       More.contains line mechanism).
Proof.
  intros cfg dig txt. unfold Script.spf_appears_valid.
  change [Script.bre "include:"; Script.bre "a:"; Script.bre "mx"; Script.bre "ip4:";
          Script.bre "ip6:"]
    with (map Script.bre ["include:"; "a:"; "mx"; "ip4:"; "ip6:"]).
  split.
  - destruct (Script.sh_n (Script.SPF_RESULT cfg dig)); split; congruence.
  - split.
    + destruct (Script.sh_n (Script.SPF_RESULT cfg dig)); [|discriminate].
      intros H. injection H as H.
      apply (grep_q_tags ["include:"; "a:"; "mx"; "ip4:"; "ip6:"]) in H
        as (line & tag & Hin & Ht & Hc); [|reflexivity].
      unfold Script.SPF_RESULT in Hin.
      apply in_grep_contains in Hin as [Hin Hd]; [|reflexivity].
      now exists line, tag.
    + intros (line & tag & Hin & Hd & Ht & Hc).
      assert (Hl : In line (Script.SPF_RESULT cfg dig))
        by (unfold Script.SPF_RESULT; apply in_grep_contains; [reflexivity | now split]).
      assert (Hn : Script.sh_n (Script.SPF_RESULT cfg dig) = true).
      { unfold Script.SPF_RESULT. apply sh_n_grep_contains; [reflexivity|discriminate|].
        now exists line. }
      rewrite Hn. f_equal. apply grep_q_tags; [reflexivity|]. now exists line, tag.
Qed.

(** ** The summary of the script *)

(** X4: the score of the script counts five findings: MX output, A
    output, an SPF line, a DKIM line at some selector and a DMARC line.
    The summary is the best one iff all five are there, and the worst one
    iff at most two are. *)
Theorem script_summary_by_findings :
  forall (cfg : Script.Config) (dig : Script.Dig),
    let findings :=
      [Script.sh_n (Script.MX_RESULT cfg dig); Script.sh_n (Script.A_RESULT cfg dig);
       Script.sh_n (Script.SPF_RESULT cfg dig); Script.DKIM_FOUND cfg dig;
       Script.sh_n (Script.DMARC_RESULT cfg dig)] in
    Script.SCORE cfg dig = Answers.count_true findings /\
    (Script.summary cfg dig = Script.Excellent <-> forallb (fun b => b) findings = true) /\
    (Script.summary cfg dig = Script.NeedsWork <-> (Answers.count_true findings <= 2)%Z).
Proof.
  intros cfg dig. unfold Script.summary, Script.SCORE.
  destruct (Script.sh_n (Script.MX_RESULT cfg dig)), (Script.sh_n (Script.A_RESULT cfg dig)),
    (Script.sh_n (Script.SPF_RESULT cfg dig)), (Script.DKIM_FOUND cfg dig),
    (Script.sh_n (Script.DMARC_RESULT cfg dig));
    vm_compute; repeat split; intros; try discriminate; try reflexivity; congruence.
Qed.

Lemma sh_n_mono (out1 out2 : list string) :
  incl out1 out2 -> Script.sh_n out1 = true -> Script.sh_n out2 = true.
Proof.
  intros Hi H. apply sh_n_exists in H as (line & Hin & Hne).
  apply sh_n_exists. exists line. split; [now apply Hi | exact Hne].
Qed.

Lemma grep_mono (p : Script.Pattern) (out1 out2 : list string) :
  incl out1 out2 -> incl (Script.grep p out1) (Script.grep p out2).
Proof.
  intros Hi line H. unfold Script.grep in *. apply filter_In in H as [Hin Hm].
  apply filter_In. split; [now apply Hi | exact Hm].
Qed.

Section MoreLines.

Variable cfg : Script.Config.
Variables dig1 dig2 : Script.Dig.
Hypothesis included : More.dig_included dig1 dig2.

Lemma dig_incl (t : Script.RRType) (name : string) :
  incl (Script.dig_short dig1 t name) (Script.dig_short dig2 t name).
Proof. intros line. apply included. Qed.

Lemma MX_mono :
  Script.sh_n (Script.MX_RESULT cfg dig1) = true ->
  Script.sh_n (Script.MX_RESULT cfg dig2) = true.
Proof. apply sh_n_mono, dig_incl. Qed.

Lemma A_mono :
  Script.sh_n (Script.A_RESULT cfg dig1) = true ->
  Script.sh_n (Script.A_RESULT cfg dig2) = true.
Proof. apply sh_n_mono, dig_incl. Qed.

Lemma SPF_mono :
  Script.sh_n (Script.SPF_RESULT cfg dig1) = true ->
  Script.sh_n (Script.SPF_RESULT cfg dig2) = true.
Proof. apply sh_n_mono, grep_mono, dig_incl. Qed.

Lemma DMARC_mono :
  Script.sh_n (Script.DMARC_RESULT cfg dig1) = true ->
  Script.sh_n (Script.DMARC_RESULT cfg dig2) = true.
Proof. apply sh_n_mono, grep_mono, dig_incl. Qed.

Lemma DKIM_mono :
  Script.DKIM_FOUND cfg dig1 = true -> Script.DKIM_FOUND cfg dig2 = true.
Proof.
  unfold Script.DKIM_FOUND. rewrite !fold_found, !orb_false_l, !existsb_exists.
  intros (selector & Hin & H). exists selector. split; [exact Hin|].
  revert H. apply sh_n_mono, grep_mono, dig_incl.
Qed.

Lemma SCORE_mono : (Script.SCORE cfg dig1 <= Script.SCORE cfg dig2)%Z.
Proof.
  pose proof MX_mono as Hmx. pose proof A_mono as Ha. pose proof SPF_mono as Hspf.
  pose proof DKIM_mono as Hdkim. pose proof DMARC_mono as Hdmarc.
  unfold Script.SCORE.
  destruct (Script.sh_n (Script.MX_RESULT cfg dig1));
    [rewrite (Hmx eq_refl) | destruct (Script.sh_n (Script.MX_RESULT cfg dig2))];
  (destruct (Script.sh_n (Script.A_RESULT cfg dig1));
    [rewrite (Ha eq_refl) | destruct (Script.sh_n (Script.A_RESULT cfg dig2))]);
  (destruct (Script.sh_n (Script.SPF_RESULT cfg dig1));
    [rewrite (Hspf eq_refl) | destruct (Script.sh_n (Script.SPF_RESULT cfg dig2))]);
  (destruct (Script.DKIM_FOUND cfg dig1);
    [rewrite (Hdkim eq_refl) | destruct (Script.DKIM_FOUND cfg dig2)]);
  (destruct (Script.sh_n (Script.DMARC_RESULT cfg dig1));
    [rewrite (Hdmarc eq_refl) | destruct (Script.sh_n (Script.DMARC_RESULT cfg dig2))]);
  vm_compute; discriminate.
Qed.

End MoreLines.

(** X5: printing more lines never costs points: when every line [dig]
    prints in one run is also printed in another, the score of the other
    run is at least as high and its summary at least as good. *)
Theorem script_score_monotone :
  forall (cfg : Script.Config) (dig1 dig2 : Script.Dig),
    More.dig_included dig1 dig2 ->
    (Script.SCORE cfg dig1 <= Script.SCORE cfg dig2)%Z /\
    (More.summary_rank (Script.summary cfg dig1) <=
     More.summary_rank (Script.summary cfg dig2))%nat.
Proof.
  intros cfg dig1 dig2 Hi.
  pose proof (SCORE_mono cfg dig1 dig2 Hi) as Hs. split; [exact Hs|].
  pose proof (SCORE_range cfg dig1) as H1. pose proof (SCORE_range cfg dig2) as H2.
  unfold Script.summary, Script.TOTAL.
  set (s1 := Script.SCORE cfg dig1) in *. set (s2 := Script.SCORE cfg dig2) in *.
  clearbody s1 s2.
  destruct (Z.eqb_spec s1 5), (Z.eqb_spec s2 5), (Z.leb_spec 3 s1), (Z.leb_spec 3 s2);
    simpl; lia.
Qed.

(** The MX line and the SPF line of a zone against the same two lines
    with an A, a DKIM and a DMARC line added. *)
Lemma script_score_monotone_witness :
  (Script.SCORE Script.mailhero More.mx_and_spf <=
   Script.SCORE Script.mailhero Zones.all_five)%Z /\
  (More.summary_rank (Script.summary Script.mailhero More.mx_and_spf) <=
   More.summary_rank (Script.summary Script.mailhero Zones.all_five))%nat.
Proof.
  apply (script_score_monotone Script.mailhero More.mx_and_spf Zones.all_five).
  intros t name line. unfold More.mx_and_spf, Zones.all_five, Zones.dig_of.
  cbn -[String.eqb In].
  destruct t; cbn -[String.eqb In];
    destruct (String.eqb "mailhero.in" name); cbn -[String.eqb In];
    try (intros H; exact H); intros [].
Defined.

(** The two runs of the witness score 2 and 5: the smaller run needs
    work, the larger is the best. *)
Example script_score_monotone_values :
  Script.SCORE Script.mailhero More.mx_and_spf = 2%Z /\
  Script.summary Script.mailhero More.mx_and_spf = Script.NeedsWork /\
  Script.SCORE Script.mailhero Zones.all_five = 5%Z /\
  Script.summary Script.mailhero Zones.all_five = Script.Excellent.
Proof. repeat split; vm_compute; reflexivity. Qed.

(** ** More of [dnsStatus] *)

Lemma dmarc_report (dns : Tool.Resolver) (d : string) :
  Tool.dmarc (Answers.report dns d) = option_map Js.join (Answers.dmarc_entry dns d).
Proof. reflexivity. Qed.

(** X6: the [dmarc] field of the report is the concatenated value of the
    first TXT entry at [_dmarc.{domain}] that starts with [v=DMARC1], and
    [null] when the lookup is rejected or no entry starts so. *)
Theorem dnsStatus_dmarc_first_entry :
  forall (dns : Tool.Resolver) (d : string),
    exists rep,
      Tool.outcome (Tool.dnsStatus dns (Tool.mkInput d)) = inr rep /\
      (forall value,
          Tool.dmarc rep = Some value <->
          exists before entry after,
            Answers.txt_records dns ("_dmarc." ++ d) = (before ++ entry :: after)%list /\
            Forall (fun e => Js.startsWith (Js.join e) "v=DMARC1" = false) before /\
            Js.startsWith (Js.join entry) "v=DMARC1" = true /\
            value = Js.join entry) /\
      (Tool.dmarc rep = None <->
       forall entry, In entry (Answers.txt_records dns ("_dmarc." ++ d)) ->
                     Js.startsWith (Js.join entry) "v=DMARC1" = false).
Proof.
  intros dns d. exists (Answers.report dns d). rewrite outcome_dnsStatus, dmarc_report.
  split; [reflexivity|]. unfold Answers.dmarc_entry. split.
  - intros value. split.
    + destruct (find _ _) as [entry|] eqn:Hf; [|discriminate].
      intros H. injection H as <-.
      apply find_first in Hf as (before & after & Hl & Hb & He).
      now exists before, entry, after.
    + intros (before & entry & after & Hl & Hb & He & ->).
      assert (Hf : find (fun record => Js.startsWith (Js.join record) "v=DMARC1")
                        (Answers.txt_records dns ("_dmarc." ++ d)) = Some entry)
        by (apply find_first; now exists before, after).
      now rewrite Hf.
  - destruct (find _ _) as [entry|] eqn:Hf; simpl.
    + split; [discriminate|]. intros H. apply find_some in Hf as [Hin He].
      specialize (H entry Hin). congruence.
    + split; [|reflexivity]. intros _ entry Hin. exact (find_none _ _ Hf entry Hin).
Qed.

(** The [mx] field of the report holds the records of the MX answer,
    unchanged and in the order of the answer; it is empty when the lookup
    is rejected. *)
Lemma dnsStatus_mx_field :
  forall (dns : Tool.Resolver) (d : string),
    exists rep,
      Tool.outcome (Tool.dnsStatus dns (Tool.mkInput d)) = inr rep /\
      Tool.domain rep = d /\
      Tool.mx rep = match Tool.resolveMx dns d with
                    | inr records => records
                    | inl _ => []
                    end.
Proof.
  intros dns d. exists (Answers.report dns d). rewrite outcome_dnsStatus.
  repeat split.
Qed.

Lemma warnings_trace (dns : Tool.Resolver) (d : string) :
  List.length (filter More.is_warn (Answers.trace dns d)) =
  (More.b2n (More.rejected (Tool.resolveMx dns d)) +
   More.b2n (More.rejected (Tool.resolveTxt dns d)) +
   More.b2n (More.rejected (Tool.resolveTxt dns ("_dmarc." ++ d))))%nat
  /\ filter More.is_error (Answers.trace dns d) = []
  /\ last (Answers.trace dns d) (Tool.QueryMx d) =
     Tool.LogInfo ("DNS status check for " ++ d ++ ":") (Answers.score dns d)
                  (Tool.verdict (Answers.report dns d)).
Proof.
  unfold Answers.trace, Answers.mx_events, Answers.spf_events, Answers.dmarc_events.
  destruct (Tool.resolveMx dns d), (Tool.resolveTxt dns d),
    (Tool.resolveTxt dns ("_dmarc." ++ d)); repeat split.
Qed.

(** X8: [dnsStatus] logs one warning for each of the MX, SPF and DMARC
    lookups that is rejected and none for a rejected DKIM lookup; it logs
    no error; and the last thing it does is to log the score and the
    verdict of the report. *)
Theorem dnsStatus_logging :
  forall (dns : Tool.Resolver) (d : string),
    let log := Tool.events (Tool.dnsStatus dns (Tool.mkInput d)) in
    List.length (filter More.is_warn log) =
      (More.b2n (More.rejected (Tool.resolveMx dns d)) +
       More.b2n (More.rejected (Tool.resolveTxt dns d)) +
       More.b2n (More.rejected (Tool.resolveTxt dns ("_dmarc." ++ d))))%nat /\
    filter More.is_error log = [] /\
    exists rep s,
      Tool.outcome (Tool.dnsStatus dns (Tool.mkInput d)) = inr rep /\
      Tool.logged_score log = Some s /\
      last log (Tool.QueryMx d) =
        Tool.LogInfo ("DNS status check for " ++ d ++ ":") s (Tool.verdict rep).
Proof.
  intros dns d log. subst log. rewrite events_dnsStatus.
  destruct (warnings_trace dns d) as (Hw & He & Hl).
  split; [exact Hw|]. split; [exact He|].
  exists (Answers.report dns d), (Answers.score dns d).
  rewrite outcome_dnsStatus, logged_score_trace. now repeat split.
Qed.

(** X9: the verdict of [dnsStatus] is pass iff an MX record, an SPF entry,
    a DKIM entry at some candidate selector and a DMARC entry are all
    present, and warn iff exactly three of the four are. *)
Theorem dnsStatus_verdict_by_records :
  forall (dns : Tool.Resolver) (d : string),
    let present :=
      [Answers.mx_present dns d; Answers.spf_present dns d;
       Answers.dkim_present dns d; Answers.dmarc_present dns d] in
    exists rep,
      Tool.outcome (Tool.dnsStatus dns (Tool.mkInput d)) = inr rep /\
      (Tool.verdict rep = Tool.pass <-> forallb (fun b => b) present = true) /\
      (Tool.verdict rep = Tool.warn <-> Answers.count_true present = 3%Z) /\
      (Tool.verdict rep = Tool.fail <-> (Answers.count_true present <= 2)%Z).
Proof.
  intros dns d present. subst present. exists (Answers.report dns d).
  rewrite outcome_dnsStatus, verdict_report, score_flags.
  split; [reflexivity|].
  destruct (Answers.mx_present dns d), (Answers.spf_present dns d),
    (Answers.dkim_present dns d), (Answers.dmarc_present dns d);
    vm_compute; repeat split; intros; try discriminate; try reflexivity; congruence.
Qed.

(** X10: whatever the domain and whatever the answers, [dnsStatus] makes
    the same seven lookups in the same order, each once: MX and TXT for
    the domain, TXT for the four selector names and TXT for
    [_dmarc.{domain}]; no rejected lookup keeps a later one from being
    made. *)
Theorem dnsStatus_seven_lookups :
  forall (dns : Tool.Resolver) (d : string),
    Tool.queries (Tool.events (Tool.dnsStatus dns (Tool.mkInput d))) =
    [Tool.QueryMx d; Tool.QueryTxt d;
     Tool.QueryTxt ("s1._domainkey." ++ d); Tool.QueryTxt ("default._domainkey." ++ d);
     Tool.QueryTxt ("selector1._domainkey." ++ d);
     Tool.QueryTxt ("selector2._domainkey." ++ d);
     Tool.QueryTxt ("_dmarc." ++ d)].
Proof. intros dns d. rewrite events_dnsStatus. apply queries_trace. Qed.

Lemma dkim_entries_first (dns : Tool.Resolver) (d : string) (selectors : list string)
    (e : Tool.DkimEntry) :
  In e (Answers.dkim_entries dns d selectors) ->
  In (Tool.selector e) selectors /\
  exists entry,
    Answers.dkim_entry dns d (Tool.selector e) = Some entry /\
    Tool.txt e = Js.join entry.
Proof.
  induction selectors as [|s rest IH]; simpl; [contradiction|].
  destruct (Answers.dkim_entry dns d s) as [entry|] eqn:Hs; simpl.
  - intros [<-|H].
    + split; [now left|]. simpl. now exists entry.
    + destruct (IH H) as [Hin Hex]. split; [now right | exact Hex].
  - intros H. destruct (IH H) as [Hin Hex]. split; [now right | exact Hex].
Qed.

(** X11: the [txt] of a [dkim] entry is the concatenated value of the
    first TXT entry at its selector's name that contains [v=DKIM1]; later
    matching entries at the same name are not reported. *)
Theorem dnsStatus_dkim_txt_first_match :
  forall (dns : Tool.Resolver) (d : string),
    exists rep,
      Tool.outcome (Tool.dnsStatus dns (Tool.mkInput d)) = inr rep /\
      forall e,
        In e (Tool.dkim rep) ->
        exists before entry after,
          Answers.txt_records dns (Tool.selector e ++ "._domainkey." ++ d) =
            (before ++ entry :: after)%list /\
          Forall (fun r => Js.includes (Js.join r) "v=DKIM1" = false) before /\
          Js.includes (Js.join entry) "v=DKIM1" = true /\
          Tool.txt e = Js.join entry.
Proof.
  intros dns d. exists (Answers.report dns d). rewrite outcome_dnsStatus.
  split; [reflexivity|]. intros e He.
  change (Tool.dkim (Answers.report dns d))
    with (Answers.dkim_entries dns d Tool.dkimSelectors) in He.
  apply dkim_entries_first in He as [_ (entry & Hf & Ht)].
  unfold Answers.dkim_entry in Hf.
  apply find_first in Hf as (before & after & Hl & Hb & Hm).
  now exists before, entry, after.
Qed.


(** * [health] and [getMetrics] *)

Lemma run_health_eq (w : Admin.World) :
  Admin.run_health w =
  (Admin.mkHStore (Admin.health_report w) (Admin.health_log w), inr (Admin.health_report w)).
Proof.
  unfold Admin.run_health, Admin.health, Admin.health_log, Admin.health_report,
    Admin.database_log, Admin.storage_log, Admin.storage_free, Admin.active_count,
    Admin.count_sql.
  unfold Eff.try_catch, Eff.bind, Admin.db_query, Admin.sh_exec, Admin.assign, Admin.emit,
    Eff.modify, Eff.await, Eff.get, Eff.ret, Eff.bind. cbn [Admin.obj Admin.hlog].
  destruct (Admin.query w "SELECT 1" []) as [e1|r1];
    [|destruct (Admin.query w _ ["active"]) as [e2|[[|row rest] rc]]];
    destruct (Admin.execAsync w Admin.df_command) as [e3|r3]; reflexivity.
Qed.

(** X12: [health] never throws, whatever the database and the shell do.
    In the object it returns, which is also the one it logs last, the
    mail services and the webmail are always reported up and the queue
    depth is always 0. *)
Theorem health_always_returns :
  forall (w : Admin.World),
    exists h,
      snd (Admin.run_health w) = inr h /\
      Admin.timestamp h = Admin.now w /\
      Admin.smtp h = Admin.up /\ Admin.imap h = Admin.up /\ Admin.webmail h = Admin.up /\
      Admin.queueDepth h = Admin.Num 0 /\ Admin.version h = "1.0.0" /\
      last (Admin.hlog (fst (Admin.run_health w))) (Admin.Exec "") =
        Admin.LogInfo "Health check completed:" h.
Proof.
  intros w. exists (Admin.health_report w). rewrite run_health_eq.
  repeat split. cbn [fst Admin.hlog]. unfold Admin.health_log.
  rewrite !app_assoc. apply last_last.
Qed.


(** X14: [health] asks the count only after [SELECT 1] has resolved, and
    runs [df] once in every case: a failing database does not keep the
    storage from being checked. *)
Theorem health_calls :
  forall (w : Admin.World),
    let log := Admin.hlog (fst (Admin.run_health w)) in
    filter Admin.is_query log =
      (Admin.Query "SELECT 1" [] ::
       match Admin.query w "SELECT 1" [] with
       | inr _ =>
           [Admin.Query "SELECT COUNT(*) as count FROM users WHERE status = $1" ["active"]]
       | inl _ => []
       end) /\
    filter Admin.is_exec log = [Admin.Exec "df -BG / | tail -1 | awk '{print $4}'"].
Proof.
  intros w log. subst log. rewrite run_health_eq. cbn [fst Admin.hlog].
  unfold Admin.health_log, Admin.database_log, Admin.storage_log, Admin.count_sql.
  destruct (Admin.query w "SELECT 1" []) as [e1|r1];
    [|destruct (Admin.query w _ ["active"]) as [e2|[[|row rest] rc]]];
    destruct (Admin.execAsync w Admin.df_command) as [e3|r3]; split; reflexivity.
Qed.

(** X15: [storageFreeGB] is 0 when [df] cannot be run; otherwise it is
    [parseInt] of the output with its first [G] taken out, or 0 when that
    is [NaN] or 0.  So it is never [NaN], whereas [activeUsers] is
    whatever [parseInt] gives. *)
Theorem health_storage :
  forall (w : Admin.World),
    exists h,
      snd (Admin.run_health w) = inr h /\
      Admin.storageFreeGB h <> Admin.NaN /\
      Admin.storageFreeGB h =
        match Admin.execAsync w "df -BG / | tail -1 | awk '{print $4}'" with
        | inl _ => Admin.Num 0
        | inr result =>
            match Admin.parseInt w (Admin.str (Admin.replace (Admin.stdout result) "G" "")) with
            | Admin.NaN => Admin.Num 0
            | n => n
            end
        end.
Proof.
  intros w. exists (Admin.health_report w). rewrite run_health_eq.
  split; [reflexivity|]. cbn [Admin.health_report Admin.storageFreeGB].
  unfold Admin.storage_free, Admin.df_command.
  destruct (Admin.execAsync w _) as [e|r]; [split; [discriminate | reflexivity]|].
  destruct (Admin.parseInt w _) as [|[| |]|]; split; (discriminate || reflexivity).
Qed.

(** X16: [getMetrics] rejects iff its one query rejects, and then with
    the error of the query, after logging it; it makes no other call. *)
Theorem getMetrics_rejects_iff_query_rejects :
  forall (w : Admin.World),
    (forall e, snd (Admin.run_getMetrics w) = inl e <->
               Admin.query w Admin.user_stats_sql [] = inl e) /\
    fst (Admin.run_getMetrics w) =
      (Admin.Query Admin.user_stats_sql [] ::
       match Admin.query w Admin.user_stats_sql [] with
       | inl e => [Admin.LogError "Failed to get metrics:" e]
       | inr _ => []
       end).
Proof.
  intros w. unfold Admin.run_getMetrics, Admin.getMetrics, Eff.try_catch, Eff.bind,
    Admin.log, Eff.modify, Eff.await, Eff.throw, Eff.ret.
  destruct (Admin.query w Admin.user_stats_sql []) as [e|[[|row rest] rc]];
    cbn [Admin.rows fst snd app]; (split; [|reflexivity]);
    intros e'; split; intros H; congruence.
Qed.

(** X17: when the query resolves, [getMetrics] resolves with the time of
    the call, with [parseInt] of the [total], [active] and [suspended]
    columns of the first row as the user figures, or zeros when there is
    no row, and with every mail, storage and performance figure at 0. *)
Theorem getMetrics_figures :
  forall (w : Admin.World) (result : Admin.QueryResult),
    Admin.query w Admin.user_stats_sql [] = inr result ->
    exists m,
      snd (Admin.run_getMetrics w) = inr m /\
      Admin.m_timestamp m = Admin.now w /\
      Admin.users m =
        match Admin.rows result with
        | row :: _ =>
            Admin.mkUsers (Admin.parseInt w (Admin.prop row "total"))
                          (Admin.parseInt w (Admin.prop row "active"))
                          (Admin.parseInt w (Admin.prop row "suspended"))
        | [] => Admin.mkUsers (Admin.Num 0) (Admin.Num 0) (Admin.Num 0)
        end /\
      Admin.mail m = Admin.mkMail (Admin.Num 0) (Admin.Num 0) (Admin.Num 0) /\
      Admin.storage m = Admin.mkStorage (Admin.Num 0) (Admin.Num 0) (Admin.Num 0) /\
      Admin.performance m = Admin.mkPerformance (Admin.Num 0) (Admin.Num 0).
Proof.
  intros w result Hq.
  unfold Admin.run_getMetrics, Admin.getMetrics, Eff.try_catch, Eff.bind,
    Admin.log, Eff.modify, Eff.await, Eff.throw, Eff.ret.
  rewrite Hq. destruct result as [[|row rest] rc]; cbn [Admin.rows snd];
    eexists; (split; [reflexivity|]); repeat split.
Qed.

Lemma getMetrics_figures_witness :
  exists m,
    snd (Admin.run_getMetrics Worlds.healthy) = inr m /\
    Admin.m_timestamp m = "2024-01-01T00:00:00.000Z" /\
    Admin.users m = Admin.mkUsers (Admin.Num 50) (Admin.Num 42) (Admin.Num 8) /\
    Admin.mail m = Admin.mkMail (Admin.Num 0) (Admin.Num 0) (Admin.Num 0) /\
    Admin.storage m = Admin.mkStorage (Admin.Num 0) (Admin.Num 0) (Admin.Num 0) /\
    Admin.performance m = Admin.mkPerformance (Admin.Num 0) (Admin.Num 0).
Proof.
  apply (getMetrics_figures Worlds.healthy
           (Admin.mkQueryResult
              [[("total", Admin.str "50"); ("active", Admin.str "42");
                ("suspended", Admin.str "8")]] 1)).
  reflexivity.
Defined.

(** * The router *)

Section RouterFacts.

Variables Body Result : Type.
Variable hs : Router.Handlers Body Result.
Variable inherited : string -> bool.
Variable validateTool : Router.Request Body -> Router.Middleware Result.

Lemma own_tools_names (key : string) :
  In key Router.tool_names ->
  exists t, Router.own Body Result (Router.tools Body Result hs) key = Some t /\
            Router.name Body Result t = key.
Proof.
  unfold Router.tool_names. simpl In.
  intros H. repeat (destruct H as [<-|H]; [eexists; split; reflexivity|]). contradiction.
Qed.

Lemma own_tools_none (key : string) :
  ~ In key Router.tool_names ->
  Router.own Body Result (Router.tools Body Result hs) key = None.
Proof.
  clear inherited validateTool.
  unfold Router.tool_names, Router.tools. intros H. cbn -[String.eqb].
  repeat match goal with
         | |- context [String.eqb ?k key] =>
             destruct (String.eqb_spec k key) as [E|_];
               [exfalso; apply H; rewrite <- E; simpl; tauto|]
         end.
  reflexivity.
Qed.

Lemma own_tools_some (key : string) (t : Router.ToolDef Body Result) :
  Router.own Body Result (Router.tools Body Result hs) key = Some t ->
  In key Router.tool_names.
Proof.
  intros H. destruct (in_dec string_dec key Router.tool_names) as [Hin|Hn]; [exact Hin|].
  rewrite (own_tools_none key Hn) in H. discriminate H.
Qed.

Lemma execute_own (req : Router.Request Body) (t : Router.ToolDef Body Result) :
  Router.own Body Result (Router.tools Body Result hs) (Router.toolName req) = Some t ->
  Router.execute_tool Body Result hs inherited req [] =
  match Router.handler Body Result t (Router.body req) with
  | inr result =>
      ([Router.LogExecuting (Router.toolName req) (Router.body req);
        Router.Call (Router.toolName req) (Router.body req);
        Router.LogSuccess (Router.toolName req) result],
       inr (Router.mkResponse 200 (Router.Json result)))
  | inl e =>
      ([Router.LogExecuting (Router.toolName req) (Router.body req);
        Router.Call (Router.toolName req) (Router.body req);
        Router.LogFailed (Router.toolName req) (Tool.message e)],
       inr (Router.mkResponse 500
              (Router.ExecutionFailed "Tool execution failed" (Tool.message e))))
  end.
Proof.
  intros Ho. unfold Router.execute_tool, Router.tools_get. rewrite Ho.
  unfold Eff.try_catch, Eff.bind, Router.call_handler, Router.log, Eff.modify, Eff.await,
    Eff.bind, Eff.ret.
  destruct (Router.handler Body Result t (Router.body req)); reflexivity.
Qed.

End RouterFacts.

(** X18: a request that validation lets through and whose tool name is
    neither one of the thirteen tools nor a name every object inherits is
    answered 404 with the message [Tool '<name>' not found]; no handler
    is called and nothing is logged. *)
Theorem router_unknown_tool :
  forall (Body Result : Type) (hs : Router.Handlers Body Result)
         (inherited : string -> bool)
         (validateTool : Router.Request Body -> Router.Middleware Result)
         (req : Router.Request Body),
    validateTool req = Router.Next ->
    ~ In (Router.toolName req) Router.tool_names ->
    inherited (Router.toolName req) = false ->
    Router.serve Body Result hs inherited validateTool req =
    ([], inr (Router.mkResponse 404
                (Router.NotFound ("Tool '" ++ Router.toolName req ++ "' not found")))).
Proof.
  intros Body Result hs inherited validateTool req Hv Hn Hi.
  unfold Router.serve, Router.post. rewrite Hv.
  unfold Router.execute_tool, Router.tools_get.
  rewrite (own_tools_none Body Result hs _ Hn), Hi. reflexivity.
Qed.

Lemma router_unknown_tool_witness :
  Router.serve string string Worlds.handlers_example Worlds.object_members
    Worlds.let_through (Router.mkRequest "getMetrics" "{}") =
  ([], inr (Router.mkResponse 404 (Router.NotFound "Tool 'getMetrics' not found"))).
Proof.
  apply (router_unknown_tool string string Worlds.handlers_example Worlds.object_members
           Worlds.let_through (Router.mkRequest "getMetrics" "{}")).
  - reflexivity.
  - simpl. intros H. repeat (destruct H as [H|H]; [discriminate H|]). exact H.
  - reflexivity.
Defined.

(** X19: a request that validation lets through and that names one of the
    thirteen tools calls that tool's handler once, with the body of the
    request.  It is answered 200 with the handler's result when the
    handler resolves, and 500 with [Tool execution failed] and the
    error's message when it rejects. *)
Theorem router_tool_outcome :
  forall (Body Result : Type) (hs : Router.Handlers Body Result)
         (inherited : string -> bool)
         (validateTool : Router.Request Body -> Router.Middleware Result)
         (req : Router.Request Body),
    validateTool req = Router.Next ->
    In (Router.toolName req) Router.tool_names ->
    exists t,
      In (Router.toolName req, t) (Router.tools Body Result hs) /\
      Router.name Body Result t = Router.toolName req /\
      Router.serve Body Result hs inherited validateTool req =
      match Router.handler Body Result t (Router.body req) with
      | inr result =>
          ([Router.LogExecuting (Router.toolName req) (Router.body req);
            Router.Call (Router.toolName req) (Router.body req);
            Router.LogSuccess (Router.toolName req) result],
           inr (Router.mkResponse 200 (Router.Json result)))
      | inl e =>
          ([Router.LogExecuting (Router.toolName req) (Router.body req);
            Router.Call (Router.toolName req) (Router.body req);
            Router.LogFailed (Router.toolName req) (Tool.message e)],
           inr (Router.mkResponse 500
                  (Router.ExecutionFailed "Tool execution failed" (Tool.message e))))
      end.
Proof.
  intros Body Result hs inherited validateTool [n b] Hv Hin.
  cbn [Router.toolName Router.body] in *.
  assert (Hex : exists t, In (n, t) (Router.tools Body Result hs) /\
                          Router.own Body Result (Router.tools Body Result hs) n = Some t /\
                          Router.name Body Result t = n).
  { unfold Router.tool_names in Hin. simpl In in Hin.
    repeat (destruct Hin as [<-|Hin];
            [eexists; split; [|split; reflexivity]; simpl; tauto|]).
    contradiction. }
  destruct Hex as (t & Ht & Ho & Hname). exists t.
  split; [exact Ht|]. split; [exact Hname|].
  unfold Router.serve, Router.post. rewrite Hv.
  exact (execute_own Body Result hs inherited (Router.mkRequest n b) t Ho).
Qed.

Lemma router_tool_outcome_witness :
  exists t,
    In ("suspendUser", t) (Router.tools string string Worlds.handlers_example) /\
    Router.name string string t = "suspendUser" /\
    Router.serve string string Worlds.handlers_example Worlds.object_members
      Worlds.let_through (Router.mkRequest "suspendUser" "{}") =
    match Router.handler string string t "{}" with
    | inr result =>
        ([Router.LogExecuting "suspendUser" "{}"; Router.Call "suspendUser" "{}";
          Router.LogSuccess "suspendUser" result],
         inr (Router.mkResponse 200 (Router.Json result)))
    | inl e =>
        ([Router.LogExecuting "suspendUser" "{}"; Router.Call "suspendUser" "{}";
          Router.LogFailed "suspendUser" (Tool.message e)],
         inr (Router.mkResponse 500
                (Router.ExecutionFailed "Tool execution failed" (Tool.message e))))
    end.
Proof.
  apply (router_tool_outcome string string Worlds.handlers_example Worlds.object_members
           Worlds.let_through (Router.mkRequest "suspendUser" "{}")).
  - reflexivity.
  - simpl. tauto.
Defined.

(** X20: a request that validation lets through and whose tool name is
    not a tool but a name every object inherits is not answered 404: the
    router finds a value without a handler and answers 500, with no
    handler called. *)
Theorem router_inherited_name :
  forall (Body Result : Type) (hs : Router.Handlers Body Result)
         (inherited : string -> bool)
         (validateTool : Router.Request Body -> Router.Middleware Result)
         (req : Router.Request Body),
    validateTool req = Router.Next ->
    ~ In (Router.toolName req) Router.tool_names ->
    inherited (Router.toolName req) = true ->
    Router.serve Body Result hs inherited validateTool req =
    ([Router.LogExecuting (Router.toolName req) (Router.body req);
      Router.LogFailed (Router.toolName req) "tool.handler is not a function"],
     inr (Router.mkResponse 500
            (Router.ExecutionFailed "Tool execution failed"
               "tool.handler is not a function"))).
Proof.
  intros Body Result hs inherited validateTool req Hv Hn Hi.
  unfold Router.serve, Router.post. rewrite Hv.
  unfold Router.execute_tool, Router.tools_get.
  rewrite (own_tools_none Body Result hs _ Hn), Hi. reflexivity.
Qed.

Lemma router_inherited_name_witness :
  Router.serve string string Worlds.handlers_example Worlds.object_members
    Worlds.let_through (Router.mkRequest "constructor" "{}") =
  ([Router.LogExecuting "constructor" "{}";
    Router.LogFailed "constructor" "tool.handler is not a function"],
   inr (Router.mkResponse 500
          (Router.ExecutionFailed "Tool execution failed"
             "tool.handler is not a function"))).
Proof.
  apply (router_inherited_name string string Worlds.handlers_example
           Worlds.object_members Worlds.let_through (Router.mkRequest "constructor" "{}")).
  - reflexivity.
  - simpl. intros H. repeat (destruct H as [H|H]; [discriminate H|]). exact H.
  - reflexivity.
Defined.

(** X21: every request gets a response, the router never throws.  A
    handler is called at most once, and only for a request that
    validation let through, with the request's tool name, which is then
    one of the thirteen, and with its body.  When validation answers
    itself its response is the response; when it passes an error on, the
    application answers 500. *)
Theorem router_always_answers :
  forall (Body Result : Type) (hs : Router.Handlers Body Result)
         (inherited : string -> bool)
         (validateTool : Router.Request Body -> Router.Middleware Result)
         (req : Router.Request Body),
    let served := Router.serve Body Result hs inherited validateTool req in
    exists resp,
      snd served = inr resp /\
      (List.length (filter Router.is_call (fst served)) <= 1)%nat /\
      (forall n b,
          In (Router.Call n b) (fst served) ->
          validateTool req = Router.Next /\ n = Router.toolName req /\
          b = Router.body req /\ In n Router.tool_names) /\
      match validateTool req with
      | Router.Next => In (Router.status resp) [200; 404; 500]%Z
      | Router.NextError err =>
          resp = Router.mkResponse 500 (Router.InternalError "Internal server error")
      | Router.Respond r => resp = r
      end.
Proof.
  intros Body Result hs inherited validateTool req served. subst served.
  unfold Router.serve, Router.post.
  destruct (validateTool req) as [|err|r].
  - destruct (Router.own Body Result (Router.tools Body Result hs) (Router.toolName req))
      as [t|] eqn:Ho; [|unfold Router.execute_tool, Router.tools_get; rewrite Ho].
    + rewrite (execute_own Body Result hs inherited req t Ho).
      pose proof (own_tools_some Body Result hs _ _ Ho) as Hin.
      destruct (Router.handler Body Result t (Router.body req)); eexists;
        (split; [reflexivity|]); cbn [fst];
        (split; [simpl; lia|]);
        (split; [|simpl; tauto]);
        intros n b [H|[H|[H|[]]]]; try discriminate H;
        injection H as <- <-; now repeat split.
    + destruct (inherited (Router.toolName req)); eexists;
        (split; [reflexivity|]); cbn [fst];
        (split; [simpl; lia|]);
        (split; [|simpl; tauto]);
        intros n b H; simpl in H; try contradiction;
        destruct H as [H|[H|[]]]; discriminate H.
  - eexists. split; [reflexivity|]. cbn [fst]. split; [simpl; lia|].
    split; [|reflexivity]. intros n b [H|[]]. discriminate H.
  - exists r. split; [reflexivity|]. cbn [fst]. split; [simpl; lia|].
    split; [|reflexivity]. intros n b [].
Qed.

(** X22: the list of tools answers 200 with thirteen entries and the
    count 13; the names are those of the table in its order, no name
    twice, each entry listed under the key it has in the table; and a
    name is listed iff posting to it reaches a handler of the table. *)
Theorem router_list_tools :
  forall (Body Result : Type) (hs : Router.Handlers Body Result),
    exists listed,
      Router.list_tools Body Result hs =
        Router.mkResponse 200 (Router.ToolList listed 13) /\
      map fst listed = Router.tool_names /\
      map fst (Router.tools Body Result hs) = Router.tool_names /\
      NoDup (map fst listed) /\
      forall key,
        In key (map fst listed) <->
        exists t, Router.own Body Result (Router.tools Body Result hs) key = Some t.
Proof.
  intros Body Result hs. eexists. split; [reflexivity|].
  split; [reflexivity|]. split; [reflexivity|]. split.
  - cbn. repeat (constructor; [simpl; intuition discriminate|]). constructor.
  - intros key. change (map fst _) with Router.tool_names. split.
    + intros H. destruct (own_tools_names Body Result hs key H) as (t & Ho & _).
      now exists t.
    + intros [t Ho]. exact (own_tools_some Body Result hs key t Ho).
Qed.

(** X23: when the [dnsStatus] tool of the table is [dnsStatus] over some
    resolver, a request for it that validation lets through is always
    answered 200 with a report whose verdict is pass, warn or fail: no
    answer of the resolver makes the endpoint fail. *)
Theorem router_dnsStatus_never_fails :
  forall (hs : Router.Handlers Tool.Input Tool.Results)
         (inherited : string -> bool)
         (validateTool : Router.Request Tool.Input -> Router.Middleware Tool.Results)
         (dns : Tool.Resolver) (input : Tool.Input),
    validateTool (Router.mkRequest "dnsStatus" input) = Router.Next ->
    (forall i, Router.adminTools_dnsStatus _ _ hs i = Tool.outcome (Tool.dnsStatus dns i)) ->
    exists rep,
      snd (Router.serve _ _ hs inherited validateTool (Router.mkRequest "dnsStatus" input))
      = inr (Router.mkResponse 200 (Router.Json rep)) /\
      Tool.outcome (Tool.dnsStatus dns input) = inr rep /\
      In (Tool.verdict rep) [Tool.pass; Tool.warn; Tool.fail].
Proof.
  intros hs inherited validateTool dns [d] Hv Hh.
  exists (Answers.report dns d).
  unfold Router.serve, Router.post. rewrite Hv.
  rewrite (execute_own _ _ hs inherited (Router.mkRequest "dnsStatus" (Tool.mkInput d))
             (Router.mkTool _ _ "dnsStatus" "Check DNS configuration status"
                (Router.adminTools_dnsStatus _ _ hs)) eq_refl).
  cbn [Router.handler Router.body]. rewrite Hh, outcome_dnsStatus.
  split; [reflexivity|]. split; [reflexivity|].
  rewrite verdict_report. unfold Tool.verdict_of_score.
  destruct (100 <=? _)%Z; [simpl; tauto|]. destruct (75 <=? _)%Z; simpl; tauto.
Qed.

Lemma router_dnsStatus_never_fails_witness :
  exists rep,
    snd (Router.serve _ _ (Worlds.dns_handlers Zones.only_dmarc) Worlds.object_members
           (fun _ => Router.Next) (Router.mkRequest "dnsStatus" (Tool.mkInput "example.com")))
    = inr (Router.mkResponse 200 (Router.Json rep)) /\
    Tool.outcome (Tool.dnsStatus Zones.only_dmarc (Tool.mkInput "example.com")) = inr rep /\
    In (Tool.verdict rep) [Tool.pass; Tool.warn; Tool.fail].
Proof.
  apply (router_dnsStatus_never_fails (Worlds.dns_handlers Zones.only_dmarc)
           Worlds.object_members (fun _ => Router.Next) Zones.only_dmarc
           (Tool.mkInput "example.com")).
  - reflexivity.
  - intros i. reflexivity.
Defined.

(** X24: when the [health] tool of the table is [health] over some world,
    a request for it that validation lets through is always answered 200
    with a health object whose database status is up or down: neither a
    failing database nor a failing shell makes the endpoint fail. *)
Theorem router_health_never_fails :
  forall (Body : Type) (hs : Router.Handlers Body Admin.Health)
         (inherited : string -> bool)
         (validateTool : Router.Request Body -> Router.Middleware Admin.Health)
         (w : Admin.World) (body : Body),
    validateTool (Router.mkRequest "health" body) = Router.Next ->
    (forall b, Router.adminTools_health _ _ hs b = snd (Admin.run_health w)) ->
    exists h,
      snd (Router.serve _ _ hs inherited validateTool (Router.mkRequest "health" body))
      = inr (Router.mkResponse 200 (Router.Json h)) /\
      snd (Admin.run_health w) = inr h /\
      In (Admin.database h) [Admin.up; Admin.down].
Proof.
  intros Body hs inherited validateTool w body Hv Hh.
  exists (Admin.health_report w).
  unfold Router.serve, Router.post. rewrite Hv.
  rewrite (execute_own _ _ hs inherited (Router.mkRequest "health" body)
             (Router.mkTool _ _ "health" "Get system health status"
                (Router.adminTools_health _ _ hs)) eq_refl).
  cbn [Router.handler Router.body]. rewrite Hh, run_health_eq.
  split; [reflexivity|]. split; [reflexivity|].
  cbn [Admin.health_report Admin.database]. destruct (Admin.active_count w); simpl; tauto.
Qed.

Lemma router_health_never_fails_witness :
  exists h,
    snd (Router.serve _ _ (Worlds.health_handlers Worlds.broken) Worlds.object_members
           (fun _ => Router.Next) (Router.mkRequest "health" "{}"))
    = inr (Router.mkResponse 200 (Router.Json h)) /\
    snd (Admin.run_health Worlds.broken) = inr h /\
    In (Admin.database h) [Admin.up; Admin.down].
Proof.
  apply (router_health_never_fails string (Worlds.health_handlers Worlds.broken)
           Worlds.object_members (fun _ => Router.Next) Worlds.broken "{}").
  - reflexivity.
  - intros b. reflexivity.
Defined.


(** * The user tools *)

(** ** What a computation adds to the log *)

Section Appends.

Variable w : Users.World.
Variable P : Users.Event -> Prop.

Lemma appends_ret {A} (a : A) : Users.appends P (Eff.ret a).
Proof. intros l. exists []. simpl. now rewrite app_nil_r. Qed.

Lemma appends_throw {A} (e : Tool.JsError) : Users.appends P (@Eff.throw _ A e).
Proof. intros l. exists []. simpl. now rewrite app_nil_r. Qed.

Lemma appends_log (ev : Users.Event) : P ev -> Users.appends P (Users.log ev).
Proof. intros H l. exists [ev]. simpl. split; [reflexivity | now constructor]. Qed.

Lemma appends_query (sql : string) (params : list Users.Json) :
  P (Users.Query sql params) -> Users.appends P (Users.query w sql params).
Proof. intros H l. exists [Users.Query sql params]. split; [reflexivity | now constructor]. Qed.

Lemma appends_hash (data : string) (rounds : Z) :
  P (Users.Hash data rounds) -> Users.appends P (Users.hash w data rounds).
Proof.
  intros H l. exists [Users.Hash data rounds]. split; [reflexivity | now constructor].
Qed.

Lemma appends_first_id (result : Users.QueryResult) : Users.appends P (Users.first_id result).
Proof.
  unfold Users.first_id. destruct (Users.rows result); [apply appends_throw | apply appends_ret].
Qed.

Lemma appends_bind {A B} (m : Eff.M (list Users.Event) A) (k : A -> Eff.M (list Users.Event) B) :
  Users.appends P m ->
  (forall a, Users.returns m a -> Users.appends P (k a)) ->
  Users.appends P (Eff.bind m k).
Proof.
  intros Hm Hk l. destruct (Hm l) as (added & Hl & Ha). unfold Eff.bind.
  destruct (m l) as [l1 [e|a]] eqn:E; simpl in Hl; subst l1.
  - now exists added.
  - assert (Hr : Users.returns m a) by (exists l; now rewrite E).
    destruct (Hk a Hr (l ++ added)%list) as (added' & Hl' & Ha').
    exists (added ++ added')%list. rewrite Hl', <- app_assoc.
    split; [reflexivity | now apply Forall_app].
Qed.

Lemma appends_try {A} (body : Eff.M (list Users.Event) A)
    (handler : Tool.JsError -> Eff.M (list Users.Event) A) :
  Users.appends P body -> (forall e, Users.appends P (handler e)) ->
  Users.appends P (Eff.try_catch body handler).
Proof.
  intros Hb Hh l. destruct (Hb l) as (added & Hl & Ha). unfold Eff.try_catch.
  destruct (body l) as [l1 [e|a]] eqn:E; simpl in Hl; subst l1.
  - destruct (Hh e (l ++ added)%list) as (added' & Hl' & Ha').
    exists (added ++ added')%list. rewrite Hl', <- app_assoc.
    split; [reflexivity | now apply Forall_app].
  - now exists added.
Qed.

Lemma appends_for_of {A S} (xs : list A) (body : S -> A -> Eff.M (list Users.Event) S) :
  (forall s x, In x xs -> Users.appends P (body s x)) ->
  forall s, Users.appends P (Users.for_of xs body s).
Proof.
  induction xs as [|x xs IH]; intros Hb s; simpl.
  - apply appends_ret.
  - apply appends_bind; [apply Hb; now left|].
    intros s' _. apply IH. intros s0 x0 Hin. apply Hb. now right.
Qed.

Lemma appends_run {A} (m : Eff.M (list Users.Event) A) :
  Users.appends P m -> Forall P (fst (Users.run m)).
Proof. intros H. destruct (H []) as (added & Hl & Ha). unfold Users.run. now rewrite Hl. Qed.

Lemma returns_hash (data : string) (rounds : Z) (h : string) :
  Users.returns (Users.hash w data rounds) h -> Users.bcrypt_hash w data rounds = inr h.
Proof. intros [l H]. exact H. Qed.

End Appends.

Lemma no_errors (added : list Users.Event) :
  Forall Users.not_error added -> filter Users.is_error added = [].
Proof.
  induction 1 as [|ev added Hev _ IH]; [reflexivity|].
  simpl. unfold Users.not_error in Hev. now rewrite Hev.
Qed.

(** A body that logs no error, wrapped in the handler that logs the error
    and throws it again. *)
Lemma log_and_rethrow {A} (body : Eff.M (list Users.Event) A) (msg : string) :
  Users.appends Users.not_error body ->
  Users.errors_logged
    (Users.run (Eff.try_catch body
                  (fun error =>
                     Eff.bind (Users.log (Users.LogError msg error))
                              (fun _ => Eff.throw error)))).
Proof.
  intros Hb. destruct (Hb []) as (added & Hl & Ha). apply no_errors in Ha.
  unfold Users.errors_logged, Users.run, Eff.try_catch.
  destruct (body []) as [l1 [e|a]]; simpl in Hl; subst l1; simpl.
  - now exists msg, added.
  - exact Ha.
Qed.

Ltac quiet_steps w :=
  repeat first
    [ apply appends_ret
    | apply appends_throw
    | apply appends_first_id
    | apply (appends_query w); reflexivity
    | apply (appends_hash w); reflexivity
    | apply appends_log; reflexivity
    | apply appends_bind; [|intros ? _]
    | apply appends_for_of; intros
    | match goal with
      | |- Users.appends _ (if ?c then _ else _) => destruct c
      end ].

(** X30: each of the seven user tools that rejects has logged the error,
    once and as the last thing it did, and rejects with that very error;
    a tool that resolves has logged no error. *)
Theorem user_tools_log_what_they_throw :
  forall (w : Users.World),
    (forall input, Users.errors_logged (Users.run (Users.provisionUser w input))) /\
    (forall input, Users.errors_logged (Users.run (Users.suspendUser w input))) /\
    (forall input, Users.errors_logged (Users.run (Users.setPassword w input))) /\
    (forall input, Users.errors_logged (Users.run (Users.createAlias w input))) /\
    (forall input, Users.errors_logged (Users.run (Users.removeAlias w input))) /\
    (forall input, Users.errors_logged (Users.run (Users.setForwarding w input))) /\
    (forall input, Users.errors_logged (Users.run (Users.setQuota w input))).
Proof.
  intros w. repeat split; intros input.
  - unfold Users.provisionUser. apply log_and_rethrow. quiet_steps w.
  - unfold Users.suspendUser. apply log_and_rethrow. quiet_steps w.
  - unfold Users.setPassword. apply log_and_rethrow. quiet_steps w.
  - unfold Users.createAlias. apply log_and_rethrow. quiet_steps w.
  - unfold Users.removeAlias. apply log_and_rethrow. quiet_steps w.
  - unfold Users.setForwarding. apply log_and_rethrow. quiet_steps w.
  - unfold Users.setQuota. apply log_and_rethrow. quiet_steps w.
Qed.

(** X27: whatever the database answers, [provisionUser] makes only four
    kinds of database call: the lookup of the address, the insertion of
    the user, the insertion of an alias of the input and the audit entry.
    The user is inserted with the result of [bcrypt.hash] on the input
    password with 10 rounds, never with the password as given, and with
    the quota 5120 when the input has none.  It never updates or deletes:
    a failure after the user was inserted leaves that row in place. *)
Theorem provisionUser_database_calls :
  forall (w : Users.World) (input : Users.ProvisionInput),
    Forall (Users.provision_event w input)
           (fst (Users.run (Users.provisionUser w input))).
Proof.
  intros w input. apply appends_run. unfold Users.provisionUser.
  apply appends_try.
  - apply appends_bind; [apply (appends_query w); simpl; tauto|]. intros existingUser _.
    apply appends_bind;
      [destruct (Nat.ltb _ _); [apply appends_throw | apply appends_ret]|].
    intros _ _.
    apply appends_bind; [apply (appends_hash w); simpl; tauto|].
    intros passwordHash Hh. apply returns_hash in Hh.
    apply appends_bind.
    { apply (appends_query w). simpl. right. left. split; [reflexivity|].
      now exists passwordHash. }
    intros userResult _.
    apply appends_bind; [apply appends_first_id|]. intros userId _.
    apply appends_bind.
    { apply appends_for_of. intros created alias Hin.
      apply appends_bind; [|intros _ _; apply appends_ret].
      apply (appends_query w). simpl. right. right. left. split; [reflexivity|].
      now exists userId, alias. }
    intros createdAliases _.
    apply appends_bind; [apply appends_log; exact I|]. intros _ _.
    apply appends_bind; [|intros _ _; apply appends_ret].
    apply (appends_query w). simpl. right. right. right. split; [reflexivity|].
    now exists userId, createdAliases.
  - intros e. apply appends_bind; [apply appends_log; reflexivity|].
    intros _ _. apply appends_throw.
Qed.

(** X29: whatever the database answers, [suspendUser] makes only three
    kinds of database call: the lookup of the address, an update of the
    status and the audit entry.  It never deletes a row: the mode
    [delete] sets the status [deleted].  The status is updated only for
    the modes [suspend] and [delete]; the audit entry says
    [USER_SUSPENDED] for the mode [suspend] and [USER_DELETED] for every
    other mode, whether or not a status was updated. *)
Theorem suspendUser_database_calls :
  forall (w : Users.World) (input : Users.SuspendInput),
    Forall (Users.suspend_event input) (fst (Users.run (Users.suspendUser w input))).
Proof.
  intros w input. apply appends_run. unfold Users.suspendUser.
  apply appends_try.
  - apply appends_bind; [apply (appends_query w); simpl; tauto|]. intros userResult _.
    apply appends_bind;
      [destruct (Nat.eqb _ _); [apply appends_throw | apply appends_ret]|].
    intros _ _.
    apply appends_bind; [apply appends_first_id|]. intros userId _.
    apply appends_bind.
    { destruct (String.eqb_spec (Users.s_mode input) "suspend") as [Hs|Hs];
        [|destruct (String.eqb_spec (Users.s_mode input) "delete") as [Hd|Hd]].
      - apply appends_bind; [|intros _ _; apply appends_log; exact I].
        apply (appends_query w). simpl. right. left. split; [reflexivity|].
        exists userId. now left.
      - apply appends_bind; [|intros _ _; apply appends_log; exact I].
        apply (appends_query w). simpl. right. left. split; [reflexivity|].
        exists userId. now right.
      - apply appends_ret. }
    intros _ _.
    apply appends_bind; [|intros _ _; apply appends_ret].
    apply (appends_query w). simpl. right. right. split; [reflexivity|].
    now exists userId.
  - intros e. apply appends_bind; [apply appends_log; reflexivity|].
    intros _ _. apply appends_throw.
Qed.

(** A mode that is neither [suspend] nor [delete]: no status is updated,
    the audit entry says [USER_DELETED] and the tool resolves. *)
Example suspendUser_other_mode :
  Users.run (Users.suspendUser Users.one_user (Users.mkSuspend "a@mailhero.in" "disable")) =
  ([Users.Query Users.select_user [Users.JStr "a@mailhero.in"];
    Users.Query Users.insert_audit
      [Users.JStr "u-1"; Users.JStr "USER_DELETED";
       Users.JObj [("email", Users.JStr "a@mailhero.in"); ("mode", Users.JStr "disable")]]],
   inr Users.Ok).
Proof. vm_compute. reflexivity. Qed.

(** The second alias cannot be inserted: the tool rejects, and the user
    and the first alias have been inserted. *)
Example provisionUser_partial :
  Users.statements
    (fst (Users.run (Users.provisionUser Users.second_alias_fails
                       (Users.mkProvision "a@mailhero.in" "A" "secret12" None
                          (Some ["x@mailhero.in"; "y@mailhero.in"]))))) =
  [Users.select_user; Users.insert_user; Users.insert_alias; Users.insert_alias] /\
  snd (Users.run (Users.provisionUser Users.second_alias_fails
                    (Users.mkProvision "a@mailhero.in" "A" "secret12" None
                       (Some ["x@mailhero.in"; "y@mailhero.in"])))) =
  inl (Tool.mkError "duplicate key value violates unique constraint").
Proof. split; vm_compute; reflexivity. Qed.

(** X25: when the lookup of the address gives no row, each of the six
    tools that work on an existing user rejects with [User not found]
    after that one query: nothing is written, no password is hashed, and
    the error is logged. *)
Theorem user_not_found :
  forall (w : Users.World) (email : string) (result : Users.QueryResult),
    Users.respond w [] (Users.select_user, [Users.JStr email]) = inr result ->
    Users.rows result = [] ->
    let not_found := Tool.mkError "User not found" in
    let lookup := Users.Query Users.select_user [Users.JStr email] in
    (forall mode,
        Users.run (Users.suspendUser w (Users.mkSuspend email mode)) =
        ([lookup; Users.LogError ("Failed to " ++ mode ++ " user:") not_found],
         inl not_found)) /\
    (forall newPassword forceLogout,
        Users.run (Users.setPassword w (Users.mkPassword email newPassword forceLogout)) =
        ([lookup; Users.LogError "Failed to set password:" not_found], inl not_found)) /\
    (forall alias,
        Users.run (Users.createAlias w (Users.mkAlias email alias)) =
        ([lookup; Users.LogError "Failed to create alias:" not_found], inl not_found)) /\
    (forall alias,
        Users.run (Users.removeAlias w (Users.mkAlias email alias)) =
        ([lookup; Users.LogError "Failed to remove alias:" not_found], inl not_found)) /\
    (forall forwardTo keepCopy,
        Users.run (Users.setForwarding w (Users.mkForwarding email forwardTo keepCopy)) =
        ([lookup; Users.LogError "Failed to set forwarding:" not_found], inl not_found)) /\
    (forall quotaMB,
        Users.run (Users.setQuota w (Users.mkQuota email quotaMB)) =
        ([lookup; Users.LogError "Failed to set quota:" not_found], inl not_found)).
Proof.
  intros w email result Hr Hrows not_found lookup. subst not_found lookup.
  repeat split; intros;
    unfold Users.run, Users.suspendUser, Users.setPassword, Users.createAlias,
      Users.removeAlias, Users.setForwarding, Users.setQuota,
      Eff.try_catch, Eff.bind, Users.query;
    cbn [Users.s_email Users.s_mode Users.w_email Users.a_email Users.f_email
         Users.q_email Users.calls app];
    rewrite Hr, Hrows; reflexivity.
Qed.

Lemma user_not_found_witness :
  let not_found := Tool.mkError "User not found" in
  let lookup := Users.Query Users.select_user [Users.JStr "a@mailhero.in"] in
  (forall mode,
      Users.run (Users.suspendUser Users.empty_db (Users.mkSuspend "a@mailhero.in" mode)) =
      ([lookup; Users.LogError ("Failed to " ++ mode ++ " user:") not_found],
       inl not_found)) /\
  (forall newPassword forceLogout,
      Users.run (Users.setPassword Users.empty_db
                   (Users.mkPassword "a@mailhero.in" newPassword forceLogout)) =
      ([lookup; Users.LogError "Failed to set password:" not_found], inl not_found)) /\
  (forall alias,
      Users.run (Users.createAlias Users.empty_db (Users.mkAlias "a@mailhero.in" alias)) =
      ([lookup; Users.LogError "Failed to create alias:" not_found], inl not_found)) /\
  (forall alias,
      Users.run (Users.removeAlias Users.empty_db (Users.mkAlias "a@mailhero.in" alias)) =
      ([lookup; Users.LogError "Failed to remove alias:" not_found], inl not_found)) /\
  (forall forwardTo keepCopy,
      Users.run (Users.setForwarding Users.empty_db
                   (Users.mkForwarding "a@mailhero.in" forwardTo keepCopy)) =
      ([lookup; Users.LogError "Failed to set forwarding:" not_found], inl not_found)) /\
  (forall quotaMB,
      Users.run (Users.setQuota Users.empty_db (Users.mkQuota "a@mailhero.in" quotaMB)) =
      ([lookup; Users.LogError "Failed to set quota:" not_found], inl not_found)).
Proof.
  apply (user_not_found Users.empty_db "a@mailhero.in" (Users.mkQueryResult [] 0));
    reflexivity.
Defined.

(** X26: when the lookup of the address gives a row, [provisionUser]
    rejects with [User already exists] after that one query: no password
    is hashed and nothing is inserted. *)
Theorem provisionUser_existing_user :
  forall (w : Users.World) (input : Users.ProvisionInput)
         (row : Users.Row) (others : list Users.Row) (n : Z),
    Users.respond w [] (Users.select_user, [Users.JStr (Users.p_email input)]) =
      inr (Users.mkQueryResult (row :: others) n) ->
    Users.run (Users.provisionUser w input) =
    ([Users.Query Users.select_user [Users.JStr (Users.p_email input)];
      Users.LogError "Failed to provision user:" (Tool.mkError "User already exists")],
     inl (Tool.mkError "User already exists")).
Proof.
  intros w input row others n Hr.
  unfold Users.run, Users.provisionUser, Eff.try_catch, Eff.bind, Users.query.
  cbn [Users.calls app]. rewrite Hr. reflexivity.
Qed.

Lemma provisionUser_existing_user_witness :
  Users.run (Users.provisionUser Users.one_user
               (Users.mkProvision "a@mailhero.in" "A" "secret12" None None)) =
  ([Users.Query Users.select_user [Users.JStr "a@mailhero.in"];
    Users.LogError "Failed to provision user:" (Tool.mkError "User already exists")],
   inl (Tool.mkError "User already exists")).
Proof.
  apply (provisionUser_existing_user Users.one_user
           (Users.mkProvision "a@mailhero.in" "A" "secret12" None None)
           [("id", Users.JStr "u-1")] [] 1).
  reflexivity.
Defined.

Lemma calls_app (l1 l2 : list Users.Event) :
  Users.calls (l1 ++ l2) = (Users.calls l1 ++ Users.calls l2)%list.
Proof.
  induction l1 as [|ev l1 IH]; [reflexivity|].
  destruct ev; simpl; now rewrite IH.
Qed.

Lemma calls_queries (sql : string) (f : string -> list Users.Json) (xs : list string) :
  Users.calls (map (fun x => Users.Query sql (f x)) xs) = map (fun x => (sql, f x)) xs.
Proof. induction xs as [|x xs IH]; [reflexivity|]. simpl. now rewrite IH. Qed.

Lemma for_of_aliases (w : Users.World) (userId : Users.Json) (aliases : list string) :
  forall (created : list string) (l l' : list Users.Event) (res : list string),
    Users.for_of aliases
      (fun createdAliases alias =>
         Eff.bind (Users.query w Users.insert_alias [userId; Users.JStr alias])
                  (fun _ => Eff.ret (createdAliases ++ [alias])%list))
      created l = (l', inr res) ->
    res = (created ++ aliases)%list /\
    l' = (l ++ map (fun alias => Users.Query Users.insert_alias [userId; Users.JStr alias])
                   aliases)%list.
Proof.
  induction aliases as [|alias aliases IH]; intros created l l' res H; simpl in H.
  - unfold Eff.ret in H. injection H as <- <-. now rewrite !app_nil_r.
  - unfold Eff.bind at 1 in H. unfold Eff.bind at 1 in H. unfold Users.query at 1 in H.
    destruct (Users.respond w _ _) as [e|r]; [discriminate H|].
    unfold Eff.ret at 1 in H. apply IH in H as [-> ->].
    split; [now rewrite <- app_assoc | simpl; now rewrite <- app_assoc].
Qed.

(** X28: when [provisionUser] resolves, the lookup of the address gave
    no row, and it resolves with the [id] of the first row that the
    insertion of the user returned and with the aliases of the input, in
    their order.  The database calls it made are, in this order, the
    lookup, the insertion of the user with the hashed password, one
    insertion per alias in the order of the input, each under that id,
    and the audit entry under that id. *)
Theorem provisionUser_success :
  forall (w : Users.World) (input : Users.ProvisionInput) (reply : Users.Reply),
    snd (Users.run (Users.provisionUser w input)) = inr reply ->
    let email := Users.p_email input in
    let displayName := Users.p_displayName input in
    let quotaMB := Users.default (Users.p_quotaMB input) 5120%Z in
    let aliases := Users.default (Users.p_aliases input) [] in
    let lookup : Users.DbCall := (Users.select_user, [Users.JStr email]) in
    exists existing passwordHash userResult row others,
      let insertion : Users.DbCall :=
        (Users.insert_user,
         [Users.JStr email; Users.JStr displayName; Users.JStr passwordHash;
          Users.JNum quotaMB]) in
      let userId := Users.prop row "id" in
      Users.respond w [] lookup = inr existing /\
      Users.rows existing = [] /\
      Users.bcrypt_hash w (Users.p_password input) 10 = inr passwordHash /\
      Users.respond w [lookup] insertion = inr userResult /\
      Users.rows userResult = row :: others /\
      reply = Users.Created userId aliases /\
      Users.calls (fst (Users.run (Users.provisionUser w input))) =
      (lookup :: insertion ::
       map (fun alias => (Users.insert_alias, [userId; Users.JStr alias])) aliases ++
       [(Users.insert_audit,
         [userId; Users.JStr "USER_CREATED";
          Users.JObj [("email", Users.JStr email); ("displayName", Users.JStr displayName);
                      ("quotaMB", Users.JNum quotaMB);
                      ("aliases", Users.strings aliases)]])])%list.
Proof.
  intros w input reply H email displayName quotaMB aliases lookup.
  destruct (Users.run (Users.provisionUser w input)) as [l r] eqn:E.
  cbn [snd fst] in H |- *. subst r.
  unfold Users.run, Users.provisionUser in E.
  fold email displayName quotaMB aliases in E.
  set (password := Users.p_password input) in *.
  unfold Eff.try_catch in E. unfold Eff.bind at 1 in E.
  unfold Users.query at 1 in E. cbn [Users.calls app] in E.
  destruct (Users.respond w [] _) as [e|existing] eqn:Hsel; [discriminate E|].
  unfold Eff.bind at 1 in E.
  destruct (Nat.ltb 0 _) eqn:Hlt; [discriminate E|].
  assert (Hnone : Users.rows existing = [])
    by (destruct (Users.rows existing); [reflexivity | discriminate Hlt]).
  unfold Eff.ret at 1 in E.
  unfold Eff.bind at 1 in E. unfold Users.hash, Users.log, Eff.modify, Eff.await in E.
  unfold Eff.bind at 1 in E. cbn [app] in E.
  destruct (Users.bcrypt_hash w password 10) as [e|passwordHash] eqn:Hh; [discriminate E|].
  unfold Eff.bind at 1 in E. unfold Users.query at 1 in E.
  cbn [Users.calls app] in E.
  match type of E with
  | context [Users.respond w ?h ?c] =>
      destruct (Users.respond w h c) as [e|userResult] eqn:Hins; [discriminate E|]
  end.
  unfold Eff.bind at 1 in E. unfold Users.first_id in E.
  destruct (Users.rows userResult) as [|row others] eqn:Hrow; [discriminate E|].
  unfold Eff.ret at 1 in E.
  unfold Eff.bind at 1 in E.
  destruct (Users.for_of aliases _ [] _) as [l' [e|created]] eqn:Hf; [discriminate E|].
  apply for_of_aliases in Hf as [-> ->]. cbn [app] in E.
  unfold Eff.bind at 1 in E. unfold Eff.bind at 1 in E.
  unfold Users.query at 1 in E.
  match type of E with
  | context [Users.respond w ?h ?c] =>
      destruct (Users.respond w h c) as [e|audit]; [discriminate E|]
  end.
  unfold Eff.ret in E. injection E as <- <-.
  exists existing, passwordHash, userResult, row, others. cbv zeta.
  split; [first [exact Hsel | reflexivity]|]. split; [exact Hnone|].
  split; [first [exact Hh | reflexivity]|].
  split; [first [exact Hins | reflexivity]|].
  split; [first [exact Hrow | reflexivity]|]. split; [reflexivity|].
  cbn [Users.calls]. rewrite !calls_app. cbn [Users.calls].
  rewrite (calls_queries Users.insert_alias
             (fun alias => [Users.prop row "id"; Users.JStr alias])).
  now rewrite app_nil_r.
Qed.

Lemma provisionUser_success_witness :
  let input :=
    Users.mkProvision "a@mailhero.in" "A" "secret12" None
      (Some ["x@mailhero.in"; "y@mailhero.in"]) in
  let lookup : Users.DbCall := (Users.select_user, [Users.JStr "a@mailhero.in"]) in
  exists existing passwordHash userResult row others,
    let insertion : Users.DbCall :=
      (Users.insert_user,
       [Users.JStr "a@mailhero.in"; Users.JStr "A"; Users.JStr passwordHash;
        Users.JNum 5120]) in
    let userId := Users.prop row "id" in
    Users.respond Users.empty_db [] lookup = inr existing /\
    Users.rows existing = [] /\
    Users.bcrypt_hash Users.empty_db "secret12" 10 = inr passwordHash /\
    Users.respond Users.empty_db [lookup] insertion = inr userResult /\
    Users.rows userResult = row :: others /\
    Users.Created (Users.JStr "u-2") ["x@mailhero.in"; "y@mailhero.in"] =
      Users.Created userId ["x@mailhero.in"; "y@mailhero.in"] /\
    Users.calls (fst (Users.run (Users.provisionUser Users.empty_db input))) =
    (lookup :: insertion ::
     map (fun alias => (Users.insert_alias, [userId; Users.JStr alias]))
         ["x@mailhero.in"; "y@mailhero.in"] ++
     [(Users.insert_audit,
       [userId; Users.JStr "USER_CREATED";
        Users.JObj [("email", Users.JStr "a@mailhero.in"); ("displayName", Users.JStr "A");
                    ("quotaMB", Users.JNum 5120);
                    ("aliases", Users.strings ["x@mailhero.in"; "y@mailhero.in"])]])])%list.
Proof.
  apply (provisionUser_success Users.empty_db
           (Users.mkProvision "a@mailhero.in" "A" "secret12" None
              (Some ["x@mailhero.in"; "y@mailhero.in"]))
           (Users.Created (Users.JStr "u-2") ["x@mailhero.in"; "y@mailhero.in"])).
  vm_compute. reflexivity.
Defined.

(** X7: when the address is known but the deletion touches no row,
    [removeAlias] rejects with [Alias not found]; the deletion has been
    asked for by then, and no audit entry is written. *)
Theorem removeAlias_alias_not_found :
  forall (w : Users.World) (input : Users.AliasInput)
         (row : Users.Row) (others : list Users.Row) (n : Z) (result : Users.QueryResult),
    let lookup := (Users.select_user, [Users.JStr (Users.a_email input)]) in
    let deletion :=
      (Users.delete_alias, [Users.prop row "id"; Users.JStr (Users.a_alias input)]) in
    Users.respond w [] lookup = inr (Users.mkQueryResult (row :: others) n) ->
    Users.respond w [lookup] deletion = inr result ->
    Users.rowCount result = 0%Z ->
    Users.run (Users.removeAlias w input) =
    ([Users.Query (fst lookup) (snd lookup); Users.Query (fst deletion) (snd deletion);
      Users.LogError "Failed to remove alias:" (Tool.mkError "Alias not found")],
     inl (Tool.mkError "Alias not found")).
Proof.
  intros w input row others n result lookup deletion Hl Hd Hc. subst lookup deletion.
  unfold Users.run, Users.removeAlias, Eff.try_catch, Eff.bind, Users.query.
  cbn [Users.calls app]. rewrite Hl. cbn [Users.rows List.length Nat.eqb Users.first_id].
  unfold Eff.ret. cbn [Users.calls app].
  match goal with
  | |- context [Users.respond w ?h ?c] =>
      replace (Users.respond w h c) with (@inr Tool.JsError _ result)
        by (symmetry; exact Hd)
  end.
  rewrite Hc. reflexivity.
Qed.

Lemma removeAlias_alias_not_found_witness :
  Users.run (Users.removeAlias Users.no_such_alias
               (Users.mkAlias "a@mailhero.in" "x@mailhero.in")) =
  ([Users.Query Users.select_user [Users.JStr "a@mailhero.in"];
    Users.Query Users.delete_alias [Users.JStr "u-1"; Users.JStr "x@mailhero.in"];
    Users.LogError "Failed to remove alias:" (Tool.mkError "Alias not found")],
   inl (Tool.mkError "Alias not found")).
Proof.
  apply (removeAlias_alias_not_found Users.no_such_alias
           (Users.mkAlias "a@mailhero.in" "x@mailhero.in")
           [("id", Users.JStr "u-1")] [] 1 (Users.mkQueryResult [] 0));
    reflexivity.
Defined.
